(** * gocesiumtiler: point model, point sources, tiler options and the CLI

    A shallow embedding of the Go sources
    - [internal/geom/point.go]   (package [geom]),
    - the mock LAS reader        (package [las]),
    - the tiler options          (package [tiler]),
    - [cmd/main.go]              (package [main]),
    followed by the properties proved about them.

    Conventions.
    - Go [int] is a 64-bit two's complement integer: it is a [Z] and every
      arithmetic operation of the source is followed by [Go.int_wrap].
    - Go [uint8] is [Byte.byte].
    - Go [float64] and [float32] are IEEE 754 binary64 and binary32 values,
      given by the standard library's [spec_float] at (prec, emax) =
      (53, 1024) and (24, 128); arithmetic rounds to nearest, ties to even.
    - Go [error] is the message of the error; the nil error is [None].
    - A pointer receiver that the method mutates is passed in and returned. *)

From Stdlib Require Import ZArith List String Bool Lia.
From Stdlib Require Import Strings.Byte.
From Stdlib Require Import Floats.SpecFloat Floats.PrimFloat Floats.FloatOps.
Import ListNotations.
Local Open Scope Z_scope.

(* ================================================================== *)
(** * Part I: the program *)
(* ================================================================== *)

(** ** The Go values the sources use *)
Module Go.

Definition int := Z.
Definition uint8 := byte.
Definition error := string.

Definition MinInt : Z := - 2 ^ 63.
Definition MaxInt : Z := 2 ^ 63 - 1.

(** Two's complement wrap-around of a 64-bit [int]. *)
Definition int_wrap (z : Z) : int := (z + 2 ^ 63) mod 2 ^ 64 - 2 ^ 63.

Definition is_int (z : Z) : Prop := MinInt <= z <= MaxInt.

(** [len(s)] of a slice. *)
Definition len {A : Type} (s : list A) : int := Z.of_nat (List.length s).

(** [s[i]]: [None] stands for the run-time panic "index out of range". *)
Definition index {A : Type} (s : list A) (i : int) : option A :=
  if (i <? 0) then None else nth_error s (Z.to_nat i).

(** What a call does: it returns, or the goroutine panics. *)
Inductive outcome (A : Type) : Type :=
| Returns (a : A)
| Panics (msg : string).
Arguments Returns {A} a.
Arguments Panics {A} msg.

(** *** Floating point *)
Definition float64 := spec_float.
Definition float32 := spec_float.

Definition prec64 : Z := 53.
Definition emax64 : Z := 1024.
Definition prec32 : Z := 24.
Definition emax32 : Z := 128.

Definition is_float32 (x : float32) : Prop := valid_binary prec32 emax32 x = true.

(** [x - y] on float64. *)
Definition f64_sub (x y : float64) : float64 := SFsub prec64 emax64 x y.

(** [x < y], [x > y] and [x == y] on float64 (all false on NaN). *)
Definition f64_lt (x y : float64) : bool := SFltb x y.
Definition f64_gt (x y : float64) : bool := SFltb y x.
Definition f64_eq (x y : float64) : bool := SFeqb x y.

(** The conversion [float32(x)] of a float64: rounds to binary32. *)
Definition to_float32 (x : float64) : float32 :=
  match x with
  | S754_finite s m e => binary_round prec32 emax32 s m e
  | _ => x
  end.

(** The conversion [float64(x)] of a float32 (it never rounds). *)
Definition to_float64 (x : float32) : float64 :=
  match x with
  | S754_finite s m e => binary_round prec64 emax64 s m e
  | _ => x
  end.

(** The float64 nearest to [m * 2^e]; a constant of the source that is
    such a number, like 0.5 or 1000, is that float64 exactly. *)
Definition f64_of (m e : Z) : float64 := binary_normalize prec64 emax64 m e false.
Arguments f64_of : simpl never.

Definition f64_zero : float64 := S754_zero false.
Definition f32_zero : float32 := S754_zero false.
Definition f64_nan : float64 := S754_nan.

(** A float64 that is neither an infinity nor NaN. *)
Definition f64_is_finite (x : float64) : bool :=
  match x with
  | S754_zero _ | S754_finite _ _ _ => true
  | S754_infinity _ | S754_nan => false
  end.

End Go.

(** ** package geom *)
Module geom.
Import Go.

(** [type Point64 struct]. *)
Module Point64.
Record t : Type := mk {
  X : float64;
  Y : float64;
  Z : float64;
  R : uint8;
  G : uint8;
  B : uint8;
  Intensity : uint8;
  Classification : uint8
}.
(** [Point64{}]. *)
Definition zero : t := mk f64_zero f64_zero f64_zero x00 x00 x00 x00 x00.
End Point64.

(** [type Point32 struct]. *)
Module Point32.
Record t : Type := mk {
  X : float32;
  Y : float32;
  Z : float32;
  R : uint8;
  G : uint8;
  B : uint8;
  Intensity : uint8;
  Classification : uint8
}.
(** [Point32{}]. *)
Definition zero : t := mk f32_zero f32_zero f32_zero x00 x00 x00 x00 x00.
End Point32.

Definition NewPoint32 (X Y Z : float32) (R G B Intensity Classification : uint8)
  : Point32.t :=
  Point32.mk X Y Z R G B Intensity Classification.

Definition ToPointFromBaseline (p baseline : Point64.t) : Point32.t :=
  NewPoint32
    (to_float32 (f64_sub (Point64.X p) (Point64.X baseline)))
    (to_float32 (f64_sub (Point64.Y p) (Point64.Y baseline)))
    (to_float32 (f64_sub (Point64.Z p) (Point64.Z baseline)))
    (Point64.R p)
    (Point64.G p)
    (Point64.B p)
    (Point64.Intensity p)
    (Point64.Classification p).

(** The three coordinates of a point, by name. *)
Inductive axis : Type := AxisX | AxisY | AxisZ.

Definition coord64 (a : axis) (p : Point64.t) : float64 :=
  match a with
  | AxisX => Point64.X p
  | AxisY => Point64.Y p
  | AxisZ => Point64.Z p
  end.

Definition coord32 (a : axis) (p : Point32.t) : float32 :=
  match a with
  | AxisX => Point32.X p
  | AxisY => Point32.Y p
  | AxisZ => Point32.Z p
  end.

(** [type LinkedPoint struct]; a [*LinkedPoint] is an [option]: [None] is
    nil.  The nodes are never mutated by this package, and an inductive
    value is a finite list without a cycle. *)
Module LinkedPoint.
#[local] Unset Elimination Schemes.
Inductive t : Type := mk (Next : option t) (Pt : Point32.t).
Definition Next (n : t) : option t := let 'mk nx _ := n in nx.
Definition Pt (n : t) : Point32.t := let 'mk _ pt := n in pt.
End LinkedPoint.

(** [type LinkedPointStream struct] and its methods. *)
Module LinkedPointStream.
Record t : Type := mk {
  len : int;
  current : option LinkedPoint.t;
  start : option LinkedPoint.t
}.

Definition NewLinkedPointStream (root : option LinkedPoint.t) (len : int) : t :=
  mk len root root.

Definition Next (l : t) : (Point32.t * option error) * t :=
  match current l with
  | None => ((Point32.zero, Some "no more points"%string), l)
  | Some cur =>
      let pt := LinkedPoint.Pt cur in
      ((pt, None), mk (len l) (LinkedPoint.Next cur) (start l))
  end.

Definition Len (l : t) : int := len l.

Definition Reset (l : t) : t := mk (len l) (start l) (start l).

(** The points stored in the list at [root], first node first. *)
Fixpoint points_from (n : LinkedPoint.t) : list Point32.t :=
  match n with
  | LinkedPoint.mk nx pt =>
      pt :: match nx with
            | None => []
            | Some n' => points_from n'
            end
  end.

Definition points (root : option LinkedPoint.t) : list Point32.t :=
  match root with
  | None => []
  | Some n => points_from n
  end.

(** [n] calls of [Next] one after the other: what each returned, in
    call order, and the stream they leave. *)
Fixpoint NextN (n : nat) (l : t) : list (Point32.t * option error) * t :=
  match n with
  | O => ([], l)
  | S n' =>
      let '(r, l') := Next l in
      let '(rs, l'') := NextN n' l' in
      (r :: rs, l'')
  end.

(** A use of the stream: any calls of its three methods, in any order. *)
Inductive call : Type := CallNext | CallLen | CallReset.

Definition after_call (l : t) (c : call) : t :=
  match c with
  | CallNext => snd (Next l)
  | CallLen => l
  | CallReset => Reset l
  end.

Definition after_calls (l : t) (cs : list call) : t :=
  fold_left after_call cs l.

(** How many points a use of the stream has taken since it was last at
    its start: [Next] counts one (also when it fails, past the end),
    [Reset] starts again. *)
Definition consumed_from (k : nat) (cs : list call) : nat :=
  fold_left
    (fun k c =>
       match c with
       | CallNext => S k
       | CallLen => k
       | CallReset => O
       end)
    cs k.

Definition consumed (cs : list call) : nat := consumed_from O cs.

(** What [Next] returns for a point, and at the end of the list. *)
Definition delivered (pt : Point32.t) : Point32.t * option error :=
  (pt, None).
Definition no_more_points : Point32.t * option error :=
  (Point32.zero, Some "no more points"%string).

(** What [n] calls of [Next] are to return when the points still ahead
    are [ps]: each point once, in order, then the error. *)
Fixpoint results_of (ps : list Point32.t) (n : nat)
  : list (Point32.t * option error) :=
  match n with
  | O => []
  | S n' =>
      match ps with
      | [] => no_more_points :: results_of [] n'
      | pt :: ps' => delivered pt :: results_of ps' n'
      end
  end.
End LinkedPointStream.

End geom.

(** ** package las: the in-memory point source *)
Module las.
Import Go.

Module MockLasReader.
Record t : Type := mk {
  Cur : int;
  Pts : list geom.Point64.t;
  Srid : int
}.

Definition NumberOfPoints (m : t) : int := len (Pts m).

Definition GetSrid (m : t) : int := Srid m.

(** [m.Cur++] is done before the slice is read at [m.Cur-1]. *)
Definition GetNext (m : t) : outcome ((geom.Point64.t * option error) * t) :=
  if Cur m <? len (Pts m) then
    let m' := mk (int_wrap (Cur m + 1)) (Pts m) (Srid m) in
    match index (Pts m') (int_wrap (Cur m' - 1)) with
    | Some pt => Returns ((pt, None), m')
    | None => Panics "index out of range"
    end
  else Returns ((geom.Point64.zero, Some "point not available"%string), m).

(** [n] calls of [GetNext] one after the other by a single consumer:
    the results in call order and the reader they leave. *)
Fixpoint GetNextN (n : nat) (m : t)
  : outcome (list (geom.Point64.t * option error) * t) :=
  match n with
  | O => Returns ([], m)
  | S n' =>
      match GetNext m with
      | Panics msg => Panics msg
      | Returns (r, m') =>
          match GetNextN n' m' with
          | Panics msg => Panics msg
          | Returns (rs, m'') => Returns (r :: rs, m'')
          end
      end
  end.

(** What [GetNext] returns for a stored point, and past the last one. *)
Definition stored (pt : geom.Point64.t) : geom.Point64.t * option error := (pt, None).
Definition point_not_available : geom.Point64.t * option error :=
  (geom.Point64.zero, Some "point not available"%string).

(** The reader once every stored point has been returned. *)
Definition at_end (m : t) : t := mk (len (Pts m)) (Pts m) (Srid m).

(** What [k] calls of [GetNext] are to return when the points still to
    be read are [ps]: each point once, in order, then the error. *)
Fixpoint reads_of (ps : list geom.Point64.t) (k : nat)
  : list (geom.Point64.t * option error) :=
  match k with
  | O => []
  | S k' =>
      match ps with
      | [] => point_not_available :: reads_of [] k'
      | pt :: ps' => stored pt :: reads_of ps' k'
      end
  end.

(** A reader a Go program can hold whose cursor is on a stored point or
    just past the last one. *)
Definition in_bounds (m : t) : Prop :=
  0 <= Cur m <= len (Pts m) /\ len (Pts m) <= MaxInt.

(** The points from the cursor on. *)
Definition ahead (m : t) : list geom.Point64.t :=
  skipn (Z.to_nat (Cur m)) (Pts m).

(** The reader with its cursor moved [k] points on, at most to the end. *)
Definition moved (k : nat) (m : t) : t :=
  mk (Z.min (Cur m + Z.of_nat k) (len (Pts m))) (Pts m) (Srid m).

(** A reader a Go program can hold, on which nothing was read yet. *)
Definition fresh (m : t) : Prop :=
  Cur m = 0 /\ len (Pts m) <= MaxInt.
(** A reader over three points, at its start. *)
Definition three_points : t :=
  mk 0
    [ geom.Point64.mk (f64_of 1 0) (f64_of 2 0) (f64_of 3 0) x0a x14 x1e x05 x02;
      geom.Point64.mk (f64_of 4 0) (f64_of 5 0) (f64_of 6 0) x0b x15 x1f x06 x02;
      geom.Point64.mk (f64_of 7 0) (f64_of 8 0) (f64_of 9 0) x0c x16 x20 x07 x06 ]
    4979.

End MockLasReader.

End las.

(** ** package tiler: the options of a tiling job *)
Module tiler.
Import Go.

Inductive TilerEvent : Type :=
| EventReadLasHeaderStarted
| EventReadLasHeaderCompleted
| EventReadLasHeaderError
| EventPointLoadingStarted
| EventPointLoadingCompleted
| EventPointLoadingError
| EventBuildStarted
| EventBuildCompleted
| EventBuildError
| EventExportStarted
| EventExportCompleted
| EventExportError.

Section Options.
(** What [runtime.NumCPU()] returns on the host. *)
Variable NumCPU : int.
(** What running a callback does; the options only store the callback. *)
Variable action : Type.

Definition TilerCallback : Type :=
  TilerEvent -> string -> Z -> string -> action.

Record TilerOptions : Type := mkTilerOptions {
  gridSize : float64;
  maxDepth : int;
  elevationOffset : float64;
  eightBitColors : bool;
  geoidElevation : bool;
  numWorkers : int;
  minPointsPerTile : int;
  callback : option TilerCallback
}.

(** A function on a pointer to the options: the options after the call. *)
Definition tilerOptionsFn : Type := TilerOptions -> TilerOptions.

Definition NewDefaultTilerOptions : TilerOptions :=
  {| gridSize := f64_of 20 0;
     maxDepth := 10;
     elevationOffset := f64_zero;
     numWorkers := NumCPU;
     minPointsPerTile := 5000;
     eightBitColors := false;
     geoidElevation := false;
     callback := None |}.

Definition NewTilerOptions (optFn : list tilerOptionsFn) : TilerOptions :=
  fold_left (fun opts fn => fn opts) optFn NewDefaultTilerOptions.

Definition WithGridSize (size : float64) : tilerOptionsFn :=
  fun opt =>
    mkTilerOptions size (maxDepth opt) (elevationOffset opt)
      (eightBitColors opt) (geoidElevation opt) (numWorkers opt)
      (minPointsPerTile opt) (callback opt).

Definition WithMaxDepth (maxDepth' : int) : tilerOptionsFn :=
  fun opt =>
    mkTilerOptions (gridSize opt) maxDepth' (elevationOffset opt)
      (eightBitColors opt) (geoidElevation opt) (numWorkers opt)
      (minPointsPerTile opt) (callback opt).

Definition WithElevationOffset (offset : float64) : tilerOptionsFn :=
  fun opt =>
    mkTilerOptions (gridSize opt) (maxDepth opt) offset
      (eightBitColors opt) (geoidElevation opt) (numWorkers opt)
      (minPointsPerTile opt) (callback opt).

Definition WithWorkerNumber (numWorkers' : int) : tilerOptionsFn :=
  fun opt =>
    mkTilerOptions (gridSize opt) (maxDepth opt) (elevationOffset opt)
      (eightBitColors opt) (geoidElevation opt) numWorkers'
      (minPointsPerTile opt) (callback opt).

Definition WithMinPointsPerTile (minPointsPerTile' : int) : tilerOptionsFn :=
  fun opt =>
    mkTilerOptions (gridSize opt) (maxDepth opt) (elevationOffset opt)
      (eightBitColors opt) (geoidElevation opt) (numWorkers opt)
      minPointsPerTile' (callback opt).

Definition WithCallback (callback' : option TilerCallback) : tilerOptionsFn :=
  fun opt =>
    mkTilerOptions (gridSize opt) (maxDepth opt) (elevationOffset opt)
      (eightBitColors opt) (geoidElevation opt) (numWorkers opt)
      (minPointsPerTile opt) callback'.

Definition WithEightBitColors (eightBit : bool) : tilerOptionsFn :=
  fun opt =>
    mkTilerOptions (gridSize opt) (maxDepth opt) (elevationOffset opt)
      eightBit (geoidElevation opt) (numWorkers opt)
      (minPointsPerTile opt) (callback opt).

Definition WithGeoidElevation (geoid : bool) : tilerOptionsFn :=
  fun opt =>
    mkTilerOptions (gridSize opt) (maxDepth opt) (elevationOffset opt)
      (eightBitColors opt) geoid (numWorkers opt)
      (minPointsPerTile opt) (callback opt).

(** *** The calls of the eight [With...] functions, as data

    Used to speak about "an option function for field f": [optFn c] is
    the function the call [c] returns. *)
Inductive field : Type :=
| FgridSize | FmaxDepth | FelevationOffset | FeightBitColors
| FgeoidElevation | FnumWorkers | FminPointsPerTile | Fcallback.

Inductive optCall : Type :=
| CallWithGridSize (size : float64)
| CallWithMaxDepth (maxDepth : int)
| CallWithElevationOffset (offset : float64)
| CallWithWorkerNumber (numWorkers : int)
| CallWithMinPointsPerTile (minPointsPerTile : int)
| CallWithCallback (callback : option TilerCallback)
| CallWithEightBitColors (eightBit : bool)
| CallWithGeoidElevation (geoid : bool).

Definition optFn (c : optCall) : tilerOptionsFn :=
  match c with
  | CallWithGridSize size => WithGridSize size
  | CallWithMaxDepth d => WithMaxDepth d
  | CallWithElevationOffset off => WithElevationOffset off
  | CallWithWorkerNumber n => WithWorkerNumber n
  | CallWithMinPointsPerTile n => WithMinPointsPerTile n
  | CallWithCallback cb => WithCallback cb
  | CallWithEightBitColors b => WithEightBitColors b
  | CallWithGeoidElevation b => WithGeoidElevation b
  end.

(** The field the documentation of each function designates. *)
Definition designated (c : optCall) : field :=
  match c with
  | CallWithGridSize _ => FgridSize
  | CallWithMaxDepth _ => FmaxDepth
  | CallWithElevationOffset _ => FelevationOffset
  | CallWithWorkerNumber _ => FnumWorkers
  | CallWithMinPointsPerTile _ => FminPointsPerTile
  | CallWithCallback _ => Fcallback
  | CallWithEightBitColors _ => FeightBitColors
  | CallWithGeoidElevation _ => FgeoidElevation
  end.

(** Two option records agree on the field [f]. *)
Definition same_at (f : field) (o o' : TilerOptions) : Prop :=
  match f with
  | FgridSize => gridSize o = gridSize o'
  | FmaxDepth => maxDepth o = maxDepth o'
  | FelevationOffset => elevationOffset o = elevationOffset o'
  | FeightBitColors => eightBitColors o = eightBitColors o'
  | FgeoidElevation => geoidElevation o = geoidElevation o'
  | FnumWorkers => numWorkers o = numWorkers o'
  | FminPointsPerTile => minPointsPerTile o = minPointsPerTile o'
  | Fcallback => callback o = callback o'
  end.
(** *** What a field holds *)
Inductive fieldValue : Type :=
| VFloat (x : float64)
| VInt (n : int)
| VBool (b : bool)
| VCallback (cb : option TilerCallback).

Definition fieldOf (f : field) (o : TilerOptions) : fieldValue :=
  match f with
  | FgridSize => VFloat (gridSize o)
  | FmaxDepth => VInt (maxDepth o)
  | FelevationOffset => VFloat (elevationOffset o)
  | FeightBitColors => VBool (eightBitColors o)
  | FgeoidElevation => VBool (geoidElevation o)
  | FnumWorkers => VInt (numWorkers o)
  | FminPointsPerTile => VInt (minPointsPerTile o)
  | Fcallback => VCallback (callback o)
  end.

(** The argument of a call of a [With...] function. *)
Definition argOf (c : optCall) : fieldValue :=
  match c with
  | CallWithGridSize size => VFloat size
  | CallWithMaxDepth d => VInt d
  | CallWithElevationOffset off => VFloat off
  | CallWithWorkerNumber n => VInt n
  | CallWithMinPointsPerTile n => VInt n
  | CallWithCallback cb => VCallback cb
  | CallWithEightBitColors b => VBool b
  | CallWithGeoidElevation b => VBool b
  end.

Definition field_eqb (f g : field) : bool :=
  match f, g with
  | FgridSize, FgridSize | FmaxDepth, FmaxDepth
  | FelevationOffset, FelevationOffset | FeightBitColors, FeightBitColors
  | FgeoidElevation, FgeoidElevation | FnumWorkers, FnumWorkers
  | FminPointsPerTile, FminPointsPerTile | Fcallback, Fcallback => true
  | _, _ => false
  end.

(** The last call in [cs] whose designated field is [f], if there is one. *)
Fixpoint lastCallFor (f : field) (cs : list optCall) : option optCall :=
  match cs with
  | [] => None
  | c :: cs' =>
      match lastCallFor f cs' with
      | Some c' => Some c'
      | None => if field_eqb (designated c) f then Some c else None
      end
  end.

End Options.

Arguments VFloat {action} x.
Arguments VInt {action} n.
Arguments VBool {action} b.
Arguments VCallback {action} cb.
Arguments fieldOf {action} f o.
Arguments argOf {action} c.
Arguments lastCallFor {action} f cs.
Arguments gridSize {action} _.
Arguments maxDepth {action} _.
Arguments elevationOffset {action} _.
Arguments eightBitColors {action} _.
Arguments geoidElevation {action} _.
Arguments numWorkers {action} _.
Arguments minPointsPerTile {action} _.
Arguments callback {action} _.
Arguments NewDefaultTilerOptions NumCPU {action}.
Arguments NewTilerOptions NumCPU {action} optFn.
Arguments WithGridSize {action} size _.
Arguments WithMaxDepth {action} maxDepth' _.
Arguments WithElevationOffset {action} offset _.
Arguments WithWorkerNumber {action} numWorkers' _.
Arguments WithMinPointsPerTile {action} minPointsPerTile' _.
Arguments WithCallback {action} callback' _.
Arguments WithEightBitColors {action} eightBit _.
Arguments WithGeoidElevation {action} geoid _.
Arguments CallWithGridSize {action} size.
Arguments CallWithMaxDepth {action} maxDepth.
Arguments CallWithElevationOffset {action} offset.
Arguments CallWithWorkerNumber {action} numWorkers.
Arguments CallWithMinPointsPerTile {action} minPointsPerTile.
Arguments CallWithCallback {action} callback.
Arguments CallWithEightBitColors {action} eightBit.
Arguments CallWithGeoidElevation {action} geoid.
Arguments optFn {action} c _.
Arguments designated {action} c.
Arguments same_at {action} f o o'.

End tiler.

(** ** package main: the command line front end *)
Module main.
Import Go.

(** *** What a command does

    A command runs against the log of what it has done so far.  Recorded
    are the two entry points of the tiler it may invoke, with their
    arguments, and the message of a [log.Fatal]; [log.Fatal] ends the
    process with status 1, and nothing after it runs.  Lines printed to
    the console and the [context.Context] handed to the tiler are left
    out. *)
Section Commands.
Variable NumCPU : int.
Variable action : Type.

Inductive event : Type :=
| EvFatal (msg : string)
| EvProcessFiles (inputLasFiles : list string) (outputFolder : string)
    (epsgCode : int) (opts : tiler.TilerOptions action)
| EvProcessFolder (inputFolder : string) (outputFolder : string)
    (epsgCode : int) (opts : tiler.TilerOptions action).

Inductive run (A : Type) : Type :=
| Done (a : A)
| Exited (status : Z).
Arguments Done {A} a.
Arguments Exited {A} status.

Definition Cmd (A : Type) : Type := list event -> run A * list event.

Definition ret {A : Type} (a : A) : Cmd A := fun log => (Done a, log).

Definition bind {A B : Type} (c : Cmd A) (k : A -> Cmd B) : Cmd B :=
  fun log =>
    match c log with
    | (Done a, log') => k a log'
    | (Exited status, log') => (Exited status, log')
    end.

Definition emit (e : event) : Cmd unit := fun log => (Done tt, log ++ [e]).

Definition log_Fatal {A : Type} (msg : string) : Cmd A :=
  fun log => (Exited 1, log ++ [EvFatal msg]).

Notation "x <- c ;; k" := (bind c (fun x => k))
  (at level 61, c at next level, right associativity).
Notation "c ;; k" := (bind c (fun _ => k))
  (at level 61, right associativity).

(** [if cond { log.Fatal(msg) }]. *)
Definition fatal_if (cond : bool) (msg : string) : Cmd unit :=
  if cond then log_Fatal msg else ret tt.

(** *** The tiler the commands drive

    [tiler.Tiler] is an interface implemented outside these sources: a
    tiler is what its entry points return.  Invoking an entry point is
    recorded, then the tiler answers. *)
Record Tiler : Type := mkTiler {
  processFilesResult :
    list string -> string -> int -> tiler.TilerOptions action -> option error;
  processFolderResult :
    string -> string -> int -> tiler.TilerOptions action -> option error
}.

Definition ProcessFiles (t : Tiler) (inputLasFiles : list string)
    (outputFolder : string) (epsgCode : int)
    (opts : tiler.TilerOptions action) : Cmd (option error) :=
  emit (EvProcessFiles inputLasFiles outputFolder epsgCode opts) ;;
  ret (processFilesResult t inputLasFiles outputFolder epsgCode opts).

Definition ProcessFolder (t : Tiler) (inputFolder : string)
    (outputFolder : string) (epsgCode : int)
    (opts : tiler.TilerOptions action) : Cmd (option error) :=
  emit (EvProcessFolder inputFolder outputFolder epsgCode opts) ;;
  ret (processFolderResult t inputFolder outputFolder epsgCode opts).

(** The global [tilerProvider], as what calling it returns. *)
Variable tilerProvider : Tiler * option error.
(** [utils.FindLasFilesInFolder], outside these sources. *)
Variable FindLasFilesInFolder : string -> list string * option error.
(** [eventListener] prints the time of day with the message. *)
Variable eventListener : tiler.TilerCallback action.

(** *** [cliOpts] *)
Record cliOpts : Type := mkCliOpts {
  output : string;
  epsg : int;
  maxDepth : int;
  minPoints : int;
  resolution : float64;
  zOffset : float64;
  geoid : bool;
  eightBit : bool;
  join : bool
}.

Definition defaultCliOptions : cliOpts :=
  {| output := ""%string;
     epsg := -1;
     maxDepth := 10;
     minPoints := 5000;
     resolution := f64_of 20 0;
     zOffset := f64_zero;
     geoid := false;
     eightBit := false;
     join := false |}.

Definition validate (c : cliOpts) : Cmd unit :=
  fatal_if (output c =? "")%string "output flag must be set" ;;
  fatal_if (epsg c <=? 0) "epsg code is invalid" ;;
  fatal_if ((maxDepth c <=? 1) || (maxDepth c >? 20))
    "depth should be between 1 and 20" ;;
  fatal_if (minPoints c <? 1) "min-points-per-tile should be at least 1" ;;
  fatal_if (f64_lt (resolution c) (f64_of 1 (-1))
            || f64_gt (resolution c) (f64_of 1000 0))
    "resolution should be between 1 and 1000 meters".

Definition getTilerOptions (c : cliOpts) : Cmd (tiler.TilerOptions action) :=
  validate c ;;
  ret (tiler.NewTilerOptions NumCPU
         [ tiler.WithEightBitColors (eightBit c);
           tiler.WithGeoidElevation (geoid c);
           tiler.WithElevationOffset (zOffset c);
           tiler.WithGridSize (resolution c);
           tiler.WithMaxDepth (maxDepth c);
           tiler.WithMinPointsPerTile (minPoints c);
           tiler.WithCallback (Some eventListener) ]).

(** [launch] runs the function in one goroutine and waits for it. *)
Definition launch (function : Cmd (option error)) : Cmd unit :=
  err <- function ;;
  match err with
  | Some e => log_Fatal e
  | None => ret tt
  end.

Definition fileCommand (opts : cliOpts) (filepath : string) : Cmd unit :=
  let '(t, err) := tilerProvider in
  match err with Some e => log_Fatal e | None => ret tt end ;;
  tilerOpts <- getTilerOptions opts ;;
  launch (ProcessFiles t [filepath] (output opts) (epsg opts) tilerOpts).

Definition folderCommand (opts : cliOpts) (folderpath : string) : Cmd unit :=
  let '(t, err) := tilerProvider in
  match err with Some e => log_Fatal e | None => ret tt end ;;
  tilerOpts <- getTilerOptions opts ;;
  launch
    (if join opts then
       let '(files, err) := FindLasFilesInFolder folderpath in
       match err with
       | Some e => ret (Some e)
       | None => ProcessFiles t files (output opts) (epsg opts) tilerOpts
       end
     else ProcessFolder t folderpath (output opts) (epsg opts) tilerOpts).

(** *** Reading a log *)
Definition is_ProcessFiles (e : event) : bool :=
  match e with EvProcessFiles _ _ _ _ => true | _ => false end.
Definition is_ProcessFolder (e : event) : bool :=
  match e with EvProcessFolder _ _ _ _ => true | _ => false end.

(** The invocations of the tiler in a log, in order. *)
Definition invocations (log : list event) : list event :=
  filter (fun e => is_ProcessFiles e || is_ProcessFolder e) log.

(** The options [getTilerOptions] returns once [validate] has passed. *)
Definition tilerOptionsOf (c : cliOpts) : tiler.TilerOptions action :=
  tiler.NewTilerOptions NumCPU
    [ tiler.WithEightBitColors (eightBit c);
      tiler.WithGeoidElevation (geoid c);
      tiler.WithElevationOffset (zOffset c);
      tiler.WithGridSize (resolution c);
      tiler.WithMaxDepth (maxDepth c);
      tiler.WithMinPointsPerTile (minPoints c);
      tiler.WithCallback (Some eventListener) ].

(** The five checks of [validate], each false: no [log.Fatal] is reached. *)
Definition checks_pass (c : cliOpts) : bool :=
  negb (output c =? "")%string
  && negb (epsg c <=? 0)
  && negb ((maxDepth c <=? 1) || (maxDepth c >? 20))
  && negb (minPoints c <? 1)
  && negb (f64_lt (resolution c) (f64_of 1 (-1))
           || f64_gt (resolution c) (f64_of 1000 0)).

(** A command line that is valid but for its resolution, which is NaN
    (the flag [-resolution NaN] parses to it). *)
Definition nan_resolution_opts : cliOpts :=
  {| output := "out"%string;
     epsg := 4979;
     maxDepth := 10;
     minPoints := 5000;
     resolution := f64_nan;
     zOffset := f64_zero;
     geoid := false;
     eightBit := false;
     join := false |}.

(** The options [c] passes validation: no [log.Fatal], nothing logged. *)
Definition accepted (c : cliOpts) : Prop :=
  forall log, validate c log = (Done tt, log).

(** The options [c] are rejected: [validate] ends the process. *)
Definition rejected (c : cliOpts) : Prop :=
  forall log, exists msg, validate c log = (Exited 1, log ++ [EvFatal msg]).

(** [lo <= x <= hi] on float64, as Go evaluates it. *)
Definition f64_between (lo hi x : float64) : bool :=
  SFleb lo x && SFleb x hi.

(** The ranges as the documentation of the configuration surface states
    them. *)
Definition in_ranges (c : cliOpts) : Prop :=
  output c <> ""%string /\
  0 < epsg c /\
  2 <= maxDepth c <= 20 /\
  1 <= minPoints c /\
  f64_between (f64_of 1 (-1)) (f64_of 1000 0) (resolution c) = true.

(** How a command ends once it has invoked an entry point of the tiler,
    by the answer of the entry point: what the command returns and the
    log it leaves. *)
Definition ended (call : event) (answer : option error)
  : run unit * list (event) :=
  match answer with
  | Some e => (Exited 1, [call; EvFatal e])
  | None => (Done tt, [call])
  end.

End Commands.

Arguments Done {A} a.
Arguments Exited {A} status.
Arguments EvFatal {action} msg.
Arguments EvProcessFiles {action} _ _ _ _.
Arguments EvProcessFolder {action} _ _ _ _.
Arguments mkTiler {action} _ _.
Arguments invocations {action} log.
Arguments is_ProcessFiles {action} e.
Arguments is_ProcessFolder {action} e.
Arguments validate {action} c _.
Arguments ended {action} call answer.

End main.

(* ================================================================== *)
(** * Part II: properties *)
(* ================================================================== *)

(** ** Rounding a value that needs no rounding

    The conversions between float64 and float32 go through [binary_round];
    the lemmas below say when it returns its argument unchanged. *)
Module RoundFacts.

Lemma iter_pos_is_iter {A : Type} (f : A -> A) (p : positive) (x : A) :
  iter_pos f p x = Pos.iter f x p.
Proof.
  revert x; induction p as [p IH | p IH | ]; intros x; simpl.
  - now rewrite !IH, Pos.iter_swap, Pos.iter_swap.
  - now rewrite !IH.
  - reflexivity.
Qed.

Lemma digits2_pos_shl (m k : positive) :
  digits2_pos (Pos.iter xO m k) = (digits2_pos m + k)%positive.
Proof.
  induction k as [ | k IH] using Pos.peano_ind.
  - simpl. lia.
  - rewrite Pos.iter_succ; simpl; rewrite IH; lia.
Qed.

(** Shifting right the [k] zero bits that a left shift by [k] put in
    loses nothing: the remainder flags stay clear. *)
Lemma shr_shl (m k : positive) :
  iter_pos shr_1 k (Build_shr_record (Zpos (Pos.iter xO m k)) false false) =
  Build_shr_record (Zpos m) false false.
Proof.
  rewrite iter_pos_is_iter.
  induction k as [ | k IH] using Pos.peano_ind.
  - reflexivity.
  - rewrite Pos.iter_succ_r, Pos.iter_succ. exact IH.
Qed.

Section Format.
Variables prec emax : Z.

Lemma shr_fexp_canonical (m : positive) (e : Z) :
  canonical_mantissa prec emax m e = true ->
  shr_fexp prec emax (Zpos m) e loc_Exact =
  (Build_shr_record (Zpos m) false false, e).
Proof.
  unfold canonical_mantissa, shr_fexp; intros H%Z.eqb_eq.
  simpl Zdigits2; rewrite H, Z.sub_diag; reflexivity.
Qed.

(** A canonical mantissa and exponent within the range are returned. *)
Lemma binary_round_aux_canonical (s : bool) (m : positive) (e : Z) :
  bounded prec emax m e = true ->
  binary_round_aux prec emax s (Zpos m) e loc_Exact = S754_finite s m e.
Proof.
  unfold bounded; intros [Hc He]%andb_prop.
  unfold binary_round_aux.
  rewrite (shr_fexp_canonical _ _ Hc); simpl.
  rewrite (shr_fexp_canonical _ _ Hc); simpl.
  now rewrite He.
Qed.

(** The same value written with [k] more low zero bits rounds to it. *)
Lemma binary_round_shl (s : bool) (m k : positive) (e : Z) :
  bounded prec emax m e = true ->
  binary_round prec emax s (Pos.iter xO m k) (e - Zpos k) =
  S754_finite s m e.
Proof.
  intros Hb. pose proof Hb as Hb'.
  unfold bounded in Hb'; apply andb_prop in Hb' as [Hc He].
  pose proof Hc as Hc'. unfold canonical_mantissa in Hc'.
  apply Z.eqb_eq in Hc'.
  assert (Hd : Zpos (digits2_pos (Pos.iter xO m k)) + (e - Zpos k)
               = Zpos (digits2_pos m) + e)
    by (rewrite digits2_pos_shl; lia).
  unfold binary_round, shl_align. rewrite Hd, Hc'.
  replace (e - (e - Zpos k)) with (Zpos k) by lia.
  unfold binary_round_aux.
  unfold shr_fexp at 1. simpl Zdigits2. rewrite Hd, Hc'.
  replace (e - (e - Zpos k)) with (Zpos k) by lia.
  simpl shr_record_of_loc. unfold shr. rewrite shr_shl. simpl.
  replace (e - Zpos k + Zpos k) with e by lia.
  rewrite (shr_fexp_canonical _ _ Hc); simpl.
  now rewrite He.
Qed.

(** A mantissa with too few bits for its exponent is shifted left. *)
Lemma binary_round_widen (s : bool) (m k : positive) (e : Z) :
  fexp prec emax (Zpos (digits2_pos m) + e) = e - Zpos k ->
  e - Zpos k <= emax - prec ->
  binary_round prec emax s m e =
  S754_finite s (Pos.iter xO m k) (e - Zpos k).
Proof.
  intros Hf He.
  unfold binary_round, shl_align. rewrite Hf.
  replace (e - Zpos k - e) with (Zneg k) by lia.
  apply binary_round_aux_canonical.
  unfold bounded, canonical_mantissa.
  rewrite digits2_pos_shl.
  replace (Zpos (digits2_pos m + k) + (e - Zpos k))
    with (Zpos (digits2_pos m) + e) by lia.
  rewrite Hf, Z.eqb_refl. simpl. now apply Z.leb_le.
Qed.
End Format.

End RoundFacts.

(** ** Conversions between float32 and float64 *)
Module FloatFacts.
Import Go RoundFacts.

(** A finite float32 widens to the float64 with the same value: the
    mantissa gains [53 - digits] low zero bits. *)
Lemma to_float64_finite (s : bool) (m : positive) (e : Z) :
  is_float32 (S754_finite s m e) ->
  exists k : positive,
    to_float64 (S754_finite s m e) = S754_finite s (Pos.iter xO m k) (e - Zpos k).
Proof.
  unfold is_float32; simpl; unfold bounded, canonical_mantissa.
  intros [Hc He]%andb_prop. apply Z.eqb_eq in Hc. apply Z.leb_le in He.
  unfold fexp, emin, prec32, emax32 in *.
  set (d := digits2_pos m) in *.
  assert (Hk : 0 < 53 - Zpos d) by lia.
  destruct (53 - Zpos d) as [ | k | k] eqn:Ek; try lia.
  exists k. unfold to_float64.
  apply binary_round_widen.
  - unfold fexp, emin, prec64, emax64. fold d. lia.
  - unfold prec64, emax64. lia.
Qed.

(** Widening to float64 and converting back returns the float32. *)
Lemma to_float32_to_float64 (y : float32) :
  is_float32 y -> to_float32 (to_float64 y) = y.
Proof.
  destruct y as [s | s | | s m e]; try reflexivity.
  intros Hy. destruct (to_float64_finite s m e Hy) as [k ->].
  unfold to_float32. now apply binary_round_shl.
Qed.

End FloatFacts.

(** ** The constants of the sources

    The float64 constants of the model are the values Rocq's own binary64
    numbers have for the same literals. *)
Module ConstantFacts.
Import Go.

Lemma constants_are_the_literals :
  f64_of 1 (-1) = Prim2SF 0.5%float /\
  f64_of 1000 0 = Prim2SF 1000%float /\
  f64_of 20 0 = Prim2SF 20%float /\
  f64_of 16777217 0 = Prim2SF 16777217%float /\
  f64_of 16777216 0 = Prim2SF 16777216%float /\
  f64_zero = Prim2SF 0%float /\
  f64_nan = Prim2SF PrimFloat.nan.
Proof. repeat split. Qed.

(** [x + 1] does not wrap below [MaxInt], and wraps to [MinInt] at it. *)
Lemma int_wrap_examples :
  int_wrap (41 + 1) = 42 /\ int_wrap (MaxInt + 1) = MinInt /\
  int_wrap (0 - 1) = -1 /\ int_wrap (MinInt - 1) = MaxInt.
Proof. repeat split. Qed.

(** float32(0.1) is 13421773 * 2^-27, the bits 0x3DCCCCCD; float32 of the
    largest float64 is +Inf; of a float64 below half the least float32, 0. *)
Lemma to_float32_examples :
  to_float32 (Prim2SF 0x1.999999999999ap-4%float) =
    S754_finite false 13421773 (-27) /\
  to_float32 (Prim2SF 0x1.fffffffffffffp+1023%float) = S754_infinity false /\
  to_float32 (Prim2SF 0x1p-151%float) = S754_zero false /\
  to_float32 f64_nan = f64_nan.
Proof. repeat split. Qed.

End ConstantFacts.

(** ** package geom: converting a point against a baseline *)
Module GeomFacts.
Import Go geom.

(** C6.  [ToPointFromBaseline] copies the colour, the intensity and the
    classification of the point: for every point and every baseline, the
    fields R, G, B, Intensity and Classification of the result are those
    of the point converted. *)
Theorem ToPointFromBaseline_attributes (p baseline : Point64.t) :
  Point32.R (ToPointFromBaseline p baseline) = Point64.R p /\
  Point32.G (ToPointFromBaseline p baseline) = Point64.G p /\
  Point32.B (ToPointFromBaseline p baseline) = Point64.B p /\
  Point32.Intensity (ToPointFromBaseline p baseline) = Point64.Intensity p /\
  Point32.Classification (ToPointFromBaseline p baseline) =
    Point64.Classification p.
Proof. repeat split. Qed.

(** Each local coordinate is the float64 difference converted to float32. *)
Lemma ToPointFromBaseline_coord (a : axis) (p baseline : Point64.t) :
  coord32 a (ToPointFromBaseline p baseline) =
  to_float32 (f64_sub (coord64 a p) (coord64 a baseline)).
Proof. destruct a; reflexivity. Qed.

(** C1, as the code has it.  On each axis the local coordinate is the
    float64 difference [raw - baseline] converted to single precision.
    Where that difference is the value of some float32 [y], the local
    coordinate is [y] itself, so widened back to float64 it is the
    difference exactly. *)
Theorem ToPointFromBaseline_exact_when_single
    (a : axis) (p baseline : Point64.t) :
  coord32 a (ToPointFromBaseline p baseline) =
    to_float32 (f64_sub (coord64 a p) (coord64 a baseline)) /\
  forall y : float32,
    is_float32 y ->
    f64_sub (coord64 a p) (coord64 a baseline) = to_float64 y ->
    coord32 a (ToPointFromBaseline p baseline) = y /\
    to_float64 (coord32 a (ToPointFromBaseline p baseline)) =
      f64_sub (coord64 a p) (coord64 a baseline).
Proof.
  split; [apply ToPointFromBaseline_coord | ].
  intros y Hy Hd.
  assert (E : coord32 a (ToPointFromBaseline p baseline) = y).
  { rewrite ToPointFromBaseline_coord, Hd.
    now apply FloatFacts.to_float32_to_float64. }
  split; [exact E | now rewrite E].
Qed.

(** A point at x = 5, y = 7, z = 9.5 against the baseline (2, 3, 4): the
    difference on the x axis is 3, which is the float32 3. *)
Lemma ToPointFromBaseline_exact_when_single_witness :
  let p := Point64.mk (f64_of 5 0) (f64_of 7 0) (f64_of 19 (-1)) x01 x02 x03 x04 x05 in
  let b := Point64.mk (f64_of 2 0) (f64_of 3 0) (f64_of 4 0) x00 x00 x00 x00 x00 in
  let y := S754_finite false 12582912 (-22) in
  is_float32 y /\
  f64_sub (coord64 AxisX p) (coord64 AxisX b) = to_float64 y /\
  coord32 AxisX (ToPointFromBaseline p b) = y /\
  to_float64 (coord32 AxisX (ToPointFromBaseline p b)) =
    f64_sub (coord64 AxisX p) (coord64 AxisX b).
Proof.
  intros p b y.
  split; [reflexivity | split; [reflexivity | ]].
  apply (proj2 (ToPointFromBaseline_exact_when_single AxisX p b) y); reflexivity.
Defined.

(** C1, as the specification states it, fails.  The raw x coordinate 16777217
    (2^24 + 1) against the baseline 0: the difference is 16777217, the
    local coordinate is the float32 16777216, and Go's [==] between the
    two is false. *)
Lemma ToPointFromBaseline_not_exact :
  let p := Point64.mk (f64_of 16777217 0) f64_zero f64_zero x00 x00 x00 x00 x00 in
  let b := Point64.zero in
  f64_sub (Point64.X p) (Point64.X b) = f64_of 16777217 0 /\
  to_float64 (Point32.X (ToPointFromBaseline p b)) = f64_of 16777216 0 /\
  f64_eq (to_float64 (Point32.X (ToPointFromBaseline p b)))
         (f64_sub (Point64.X p) (Point64.X b)) = false.
Proof. repeat split. Qed.

End GeomFacts.

(** ** package geom: the stream over a linked list of points *)
Module StreamFacts.
Import Go geom geom.LinkedPointStream.

(** [Next] reads the stream only through the points ahead of [current]. *)
Lemma NextN_results (n : nat) (l : t) :
  fst (NextN n l) = results_of (points (current l)) n.
Proof.
  revert l; induction n as [ | n IH]; intros l; [reflexivity | ].
  simpl. unfold Next.
  destruct (current l) as [[nx pt] | ] eqn:Ecur.
  - specialize (IH (mk (len l) nx (start l))).
    destruct (NextN n _) as [rs l'']. simpl in *. rewrite IH.
    destruct nx; reflexivity.
  - specialize (IH l). destruct (NextN n l) as [rs l'']. simpl in *.
    now rewrite IH, Ecur.
Qed.

Lemma results_of_end (k : nat) : results_of [] k = repeat no_more_points k.
Proof. induction k as [ | k IH]; simpl; [ | rewrite IH]; reflexivity. Qed.

(** All the points, then the error for ever. *)
Lemma results_of_all (ps : list Point32.t) (k : nat) :
  results_of ps (List.length ps + k) = map delivered ps ++ repeat no_more_points k.
Proof.
  induction ps as [ | pt ps IH]; simpl.
  - apply results_of_end.
  - now rewrite IH.
Qed.

(** No method writes [len] or [start]. *)
Lemma after_call_frame (l : t) (c : call) :
  len (after_call l c) = len l /\ start (after_call l c) = start l.
Proof.
  destruct c; simpl; auto.
  unfold Next. destruct (current l); simpl; auto.
Qed.

Lemma after_calls_frame (cs : list call) (l : t) :
  len (after_calls l cs) = len l /\ start (after_calls l cs) = start l.
Proof.
  unfold after_calls. revert l.
  induction cs as [ | c cs IH]; intros l; simpl; [auto | ].
  destruct (IH (after_call l c)) as [-> ->]. apply after_call_frame.
Qed.

(** [Reset] after any use gives back the stream as it was constructed. *)
Lemma Reset_after_calls (root : option LinkedPoint.t) (n : int) (cs : list call) :
  Reset (after_calls (NewLinkedPointStream root n) cs) = NewLinkedPointStream root n.
Proof.
  unfold Reset.
  destruct (after_calls_frame cs (NewLinkedPointStream root n)) as [-> ->].
  reflexivity.
Qed.

(** C2.  A stream over a linked list (finite and without a cycle) is
    restartable.  Whatever calls of [Next], [Len] and [Reset] were made on
    it since it was constructed, after one more [Reset] any number [n] of
    calls of [Next] returns what the same calls return on the freshly
    constructed stream; and the fresh stream delivers the points of the
    list, each once, first node first, before [Next] fails. *)
Theorem Reset_restarts_the_stream
    (root : option LinkedPoint.t) (length : int) (cs : list call) (n k : nat) :
  fst (NextN n (Reset (after_calls (NewLinkedPointStream root length) cs))) =
    fst (NextN n (NewLinkedPointStream root length)) /\
  fst (NextN (List.length (points root) + k)
         (Reset (after_calls (NewLinkedPointStream root length) cs))) =
    map delivered (points root) ++ repeat no_more_points k.
Proof.
  rewrite Reset_after_calls. split; [reflexivity | ].
  rewrite NextN_results. simpl. apply results_of_all.
Qed.

(** C10.  [Len] is the number given to [NewLinkedPointStream]: no call of
    [Next], [Len] or [Reset] changes it, and nothing compares it with the
    list.  What [Next] delivers is fixed by the list alone, for every such
    number; so the two can disagree, as on a stream over the nil root with
    length 5, whose first [Next] already fails. *)
Theorem Len_is_the_length_given
    (root : option LinkedPoint.t) (length : int) (cs : list call) (k : nat) :
  Len (after_calls (NewLinkedPointStream root length) cs) = length /\
  fst (NextN (List.length (points root) + k) (NewLinkedPointStream root length)) =
    map delivered (points root) ++ repeat no_more_points k /\
  Len (NewLinkedPointStream None 5) = 5 /\
  fst (Next (NewLinkedPointStream None 5)) = no_more_points.
Proof.
  split; [ | split; [ | split; reflexivity]].
  - unfold Len.
    now destruct (after_calls_frame cs (NewLinkedPointStream root length)) as [-> _].
  - rewrite NextN_results. simpl. apply results_of_all.
Qed.

End StreamFacts.

(** ** package las: reading a point source to its end *)
Module LasFacts.
Import Go geom las las.MockLasReader.

Lemma int_wrap_id (z : Z) : is_int z -> int_wrap z = z.
Proof.
  unfold is_int, MinInt, MaxInt, int_wrap. intros H.
  rewrite Z.mod_small; lia.
Qed.

Lemma index_app {A : Type} (done : list A) (a : A) (rest : list A) :
  index (done ++ a :: rest) (len done) = Some a.
Proof.
  unfold index, len.
  destruct (Z.ltb_spec (Z.of_nat (List.length done)) 0) as [H | _]; [lia | ].
  rewrite Nat2Z.id, nth_error_app2, Nat.sub_diag by lia. reflexivity.
Qed.

(** One call with [a] the next point to read. *)
Lemma GetNext_stored (done : list Point64.t) (a : Point64.t)
    (rest : list Point64.t) (srid : int) :
  len (done ++ a :: rest) <= MaxInt ->
  GetNext (mk (len done) (done ++ a :: rest) srid) =
  Returns (stored a, mk (len (done ++ [a])) (done ++ a :: rest) srid).
Proof.
  intros Hlen. unfold GetNext; simpl.
  assert (Hd : len (done ++ a :: rest) = len done + 1 + len rest).
  { unfold len. rewrite length_app. simpl. lia. }
  assert (H0 : 0 <= len done /\ 0 <= len rest) by (unfold len; lia).
  destruct (Z.ltb_spec (len done) (len (done ++ a :: rest))) as [_ | H]; [ | lia].
  assert (Hw : int_wrap (len done + 1) = len done + 1).
  { apply int_wrap_id. unfold is_int, MinInt, MaxInt in *. lia. }
  rewrite Hw.
  replace (len done + 1 - 1) with (len done) by lia.
  rewrite int_wrap_id by (unfold is_int, MinInt, MaxInt in *; lia).
  rewrite index_app.
  replace (len (done ++ [a])) with (len done + 1)
    by (unfold len; rewrite length_app; simpl; lia).
  reflexivity.
Qed.

(** Reading what is left, from any position reached by reading. *)
Lemma GetNextN_rest (rest done : list Point64.t) (srid : int) :
  len (done ++ rest) <= MaxInt ->
  GetNextN (List.length rest) (mk (len done) (done ++ rest) srid) =
  Returns (map stored rest, mk (len (done ++ rest)) (done ++ rest) srid).
Proof.
  revert done; induction rest as [ | a rest IH]; intros done Hlen.
  - simpl. now rewrite app_nil_r.
  - cbn [List.length GetNextN]. rewrite GetNext_stored by exact Hlen.
    specialize (IH (done ++ [a])). rewrite <- app_assoc in IH. simpl in IH.
    rewrite IH by exact Hlen. reflexivity.
Qed.

(** Past the last point a call returns the error and writes nothing. *)
Lemma GetNext_at_end (m : t) :
  len (Pts m) <= Cur m -> GetNext m = Returns (point_not_available, m).
Proof.
  intros H. unfold GetNext.
  destruct (Z.ltb_spec (Cur m) (len (Pts m))); [lia | reflexivity].
Qed.

Lemma GetNextN_at_end (k : nat) (m : t) :
  len (Pts m) <= Cur m ->
  GetNextN k m = Returns (repeat point_not_available k, m).
Proof.
  intros H. induction k as [ | k IH]; [reflexivity | ].
  cbn [GetNextN]. rewrite GetNext_at_end by exact H. now rewrite IH.
Qed.

Lemma GetNextN_fresh (m : t) :
  fresh m ->
  GetNextN (List.length (Pts m)) m = Returns (map stored (Pts m), at_end m).
Proof.
  destruct m as [cur pts srid]. unfold fresh; simpl. intros [-> Hlen].
  exact (GetNextN_rest pts [] srid Hlen).
Qed.

(** Calls one after the other: [n + k] calls are [n] calls, then [k]. *)
Lemma GetNextN_add (n k : nat) (m m' : t) (rs : list (Point64.t * option error)) :
  GetNextN n m = Returns (rs, m') ->
  GetNextN (n + k) m =
  match GetNextN k m' with
  | Returns (rs', m'') => Returns (rs ++ rs', m'')
  | Panics msg => Panics msg
  end.
Proof.
  revert m rs; induction n as [ | n IH]; intros m rs.
  - simpl. intros [= <- <-]. destruct (GetNextN k m) as [[rs' m''] | ]; reflexivity.
  - cbn [GetNextN Nat.add].
    destruct (GetNext m) as [[r m1] | ]; [ | discriminate].
    destruct (GetNextN n m1) as [[rs1 m2] | ] eqn:E; [ | discriminate].
    intros [= <- <-]. rewrite (IH _ _ E).
    destruct (GetNextN k m2) as [[rs' m''] | ]; reflexivity.
Qed.

(** C3.  A point source on which nothing was read yet and that holds [n]
    points: [NumberOfPoints] is [n], and the first [n] calls of [GetNext],
    made one after the other, all return; they return the stored points,
    each once and in storage order, each with the nil error. *)
Theorem GetNext_returns_the_stored_points (m : t) :
  fresh m ->
  NumberOfPoints m = Z.of_nat (List.length (Pts m)) /\
  GetNextN (List.length (Pts m)) m = Returns (map stored (Pts m), at_end m).
Proof.
  intros Hm. split; [reflexivity | now apply GetNextN_fresh].
Qed.

Lemma GetNext_returns_the_stored_points_witness :
  NumberOfPoints three_points = 3 /\
  GetNextN 3 three_points =
    Returns (map stored (Pts three_points), at_end three_points).
Proof.
  apply (GetNext_returns_the_stored_points three_points).
  split; [reflexivity | now vm_compute].
Defined.

(** C4.  Once the stored points have all been returned, every further call
    of [GetNext] returns the zero point with the error "point not
    available" and leaves the reader as it is, so that [NumberOfPoints]
    and [GetSrid] keep their values and the next call fails the same way. *)
Theorem GetNext_fails_past_the_end (m : t) (k : nat) :
  fresh m ->
  GetNextN (List.length (Pts m) + k) m =
    Returns (map stored (Pts m) ++ repeat point_not_available k, at_end m) /\
  GetNextN k (at_end m) = Returns (repeat point_not_available k, at_end m) /\
  GetNext (at_end m) = Returns (point_not_available, at_end m) /\
  NumberOfPoints (at_end m) = NumberOfPoints m /\
  GetSrid (at_end m) = GetSrid m.
Proof.
  intros Hm.
  assert (Hend : GetNextN k (at_end m) = Returns (repeat point_not_available k, at_end m))
    by (apply GetNextN_at_end; simpl; lia).
  repeat split.
  - rewrite (GetNextN_add _ k _ _ _ (GetNextN_fresh m Hm)). now rewrite Hend.
  - exact Hend.
  - apply GetNext_at_end; simpl; lia.
Qed.

Lemma GetNext_fails_past_the_end_witness :
  GetNextN (3 + 2) three_points =
    Returns (map stored (Pts three_points) ++ repeat point_not_available 2,
             at_end three_points) /\
  GetNextN 2 (at_end three_points) =
    Returns (repeat point_not_available 2, at_end three_points) /\
  GetNext (at_end three_points) =
    Returns (point_not_available, at_end three_points) /\
  NumberOfPoints (at_end three_points) = NumberOfPoints three_points /\
  GetSrid (at_end three_points) = GetSrid three_points.
Proof.
  apply (GetNext_fails_past_the_end three_points 2).
  split; [reflexivity | now vm_compute].
Defined.

End LasFacts.

(** ** package tiler: building the options *)
Module OptionFacts.
Import Go tiler.

Section Options.
Variable NumCPU : int.
Variable action : Type.

(** The options are applied first to last. *)
Lemma NewTilerOptions_snoc (fns : list (tilerOptionsFn action)) (fn : tilerOptionsFn action) :
  NewTilerOptions NumCPU (fns ++ [fn]) = fn (NewTilerOptions NumCPU fns).
Proof. unfold NewTilerOptions. now rewrite fold_left_app. Qed.

(** An option function leaves every field but its own as it was. *)
Lemma optFn_frame (c : optCall action) (f : field) (o : TilerOptions action) :
  f <> designated c -> same_at f (optFn c o) o.
Proof. destruct c, f; simpl; intros H; solve [reflexivity | now elim H]. Qed.

(** An option function stores its argument in its own field. *)
Lemma optFn_sets (c : optCall action) (o : TilerOptions action) :
  match c with
  | CallWithGridSize size => gridSize (optFn c o) = size
  | CallWithMaxDepth d => maxDepth (optFn c o) = d
  | CallWithElevationOffset off => elevationOffset (optFn c o) = off
  | CallWithWorkerNumber n => numWorkers (optFn c o) = n
  | CallWithMinPointsPerTile n => minPointsPerTile (optFn c o) = n
  | CallWithCallback cb => callback (optFn c o) = cb
  | CallWithEightBitColors b => eightBitColors (optFn c o) = b
  | CallWithGeoidElevation b => geoidElevation (optFn c o) = b
  end.
Proof. destruct c; reflexivity. Qed.

Lemma optFn_commute (c1 c2 : optCall action) (o : TilerOptions action) :
  designated c1 <> designated c2 ->
  optFn c1 (optFn c2 o) = optFn c2 (optFn c1 o).
Proof. destruct c1, c2; simpl; intros H; solve [reflexivity | now elim H]. Qed.

Lemma optFn_last_wins (c1 c2 : optCall action) (o : TilerOptions action) :
  designated c1 = designated c2 ->
  optFn c2 (optFn c1 o) = optFn c2 o.
Proof. destruct c1, c2; simpl; intros H; solve [reflexivity | discriminate H]. Qed.

Lemma fold_optFn_numWorkers (cs : list (optCall action)) (o : TilerOptions action) :
  (forall n, ~ In (CallWithWorkerNumber n) cs) ->
  numWorkers (fold_left (fun opts fn => fn opts) (map optFn cs) o) = numWorkers o.
Proof.
  revert o; induction cs as [ | c cs IH]; intros o Hno; [reflexivity | ].
  simpl. rewrite IH.
  - destruct c as [ | | | n | | | | ]; try reflexivity. elim (Hno n). now left.
  - intros n Hn. apply (Hno n). now right.
Qed.

End Options.

(** C8.  The worker count is a field of the options record.  The default
    options set it to [runtime.NumCPU()], and so do the options built by
    [NewTilerOptions] from any list of option functions among which there
    is no [WithWorkerNumber]. *)
Theorem default_numWorkers_is_NumCPU
    (NumCPU : int) (action : Type) (cs : list (optCall action)) :
  (forall n, ~ In (CallWithWorkerNumber n) cs) ->
  numWorkers (NewDefaultTilerOptions NumCPU (action := action)) = NumCPU /\
  numWorkers (NewTilerOptions NumCPU (map optFn cs)) = NumCPU.
Proof.
  intros Hno. split; [reflexivity | ].
  unfold NewTilerOptions. now rewrite fold_optFn_numWorkers.
Qed.

(** The options [getTilerOptions] of the command line builds, on a host
    with 8 CPUs: the worker count is 8. *)
Lemma default_numWorkers_is_NumCPU_witness :
  numWorkers (NewDefaultTilerOptions 8 (action := unit)) = 8 /\
  numWorkers
    (NewTilerOptions 8
       (map optFn
          [ CallWithEightBitColors true; CallWithGeoidElevation true;
            CallWithElevationOffset (f64_of (-1) 0); CallWithGridSize (f64_of 23 (-1));
            CallWithMaxDepth 13; CallWithMinPointsPerTile 1200;
            CallWithCallback (action := unit) None ])) = 8.
Proof.
  apply (default_numWorkers_is_NumCPU 8 unit).
  intros n H. simpl in H.
  repeat (destruct H as [H | H]; [discriminate H | ]). exact H.
Defined.

(** C9.  [NewTilerOptions] starts from the defaults and applies the option
    functions first to last.  Each of the eight option functions stores its
    argument in its designated field and leaves the seven other fields as
    they were.  Hence two option functions for distinct fields commute, on
    any options and inside any list given to [NewTilerOptions], and of two
    option functions for the same field the later one decides. *)
Theorem option_functions_frame
    (NumCPU : int) (action : Type)
    (c c1 c2 : optCall action) (o : TilerOptions action)
    (before after : list (tilerOptionsFn action)) (fn : tilerOptionsFn action) :
  (NewTilerOptions NumCPU [] = NewDefaultTilerOptions NumCPU (action := action) /\
   NewTilerOptions NumCPU (before ++ [fn]) = fn (NewTilerOptions NumCPU before)) /\
  (forall f, f <> designated c -> same_at f (optFn c o) o) /\
  match c with
  | CallWithGridSize size => gridSize (optFn c o) = size
  | CallWithMaxDepth d => maxDepth (optFn c o) = d
  | CallWithElevationOffset off => elevationOffset (optFn c o) = off
  | CallWithWorkerNumber n => numWorkers (optFn c o) = n
  | CallWithMinPointsPerTile n => minPointsPerTile (optFn c o) = n
  | CallWithCallback cb => callback (optFn c o) = cb
  | CallWithEightBitColors b => eightBitColors (optFn c o) = b
  | CallWithGeoidElevation b => geoidElevation (optFn c o) = b
  end /\
  (designated c1 <> designated c2 ->
     optFn c1 (optFn c2 o) = optFn c2 (optFn c1 o) /\
     NewTilerOptions NumCPU (before ++ [optFn c1; optFn c2] ++ after) =
     NewTilerOptions NumCPU (before ++ [optFn c2; optFn c1] ++ after)) /\
  (designated c1 = designated c2 ->
     optFn c2 (optFn c1 o) = optFn c2 o /\
     NewTilerOptions NumCPU (before ++ [optFn c1; optFn c2] ++ after) =
     NewTilerOptions NumCPU (before ++ [optFn c2] ++ after)).
Proof.
  split; [ | split; [ | split; [ | split]]].
  - split; [reflexivity | apply NewTilerOptions_snoc].
  - intros f. apply optFn_frame.
  - apply optFn_sets.
  - intros H. split; [now apply optFn_commute | ].
    unfold NewTilerOptions. rewrite !fold_left_app. simpl.
    now rewrite (optFn_commute action c1 c2 _ H).
  - intros H. split; [now apply optFn_last_wins | ].
    unfold NewTilerOptions. rewrite !fold_left_app. simpl.
    now rewrite (optFn_last_wins action c1 c2 _ H).
Qed.

(** Depth 13 then grid size 11.5, or the other way round; depth 13 then
    depth 7. *)
Lemma option_functions_frame_witness :
  let o := NewDefaultTilerOptions 8 (action := unit) in
  (optFn (CallWithMaxDepth 13) (optFn (CallWithGridSize (f64_of 23 (-1))) o) =
   optFn (CallWithGridSize (f64_of 23 (-1))) (optFn (CallWithMaxDepth 13) o)) /\
  (optFn (CallWithMaxDepth 7) (optFn (CallWithMaxDepth 13) o) =
   optFn (CallWithMaxDepth 7) o) /\
  maxDepth (optFn (CallWithMaxDepth 13) o) = 13 /\
  same_at FnumWorkers (optFn (CallWithMaxDepth 13) o) o.
Proof.
  intros o.
  pose proof (option_functions_frame 8 unit (CallWithMaxDepth 13)
                (CallWithMaxDepth 13) (CallWithGridSize (f64_of 23 (-1))) o [] []
                (WithMaxDepth 13)) as (_ & Hframe & Hset & Hcomm & _).
  pose proof (option_functions_frame 8 unit (CallWithMaxDepth 13)
                (CallWithMaxDepth 13) (CallWithMaxDepth 7) o [] []
                (WithMaxDepth 13)) as (_ & _ & _ & _ & Hlast).
  split; [ | split; [ | split]].
  - apply Hcomm. discriminate.
  - apply Hlast. reflexivity.
  - exact Hset.
  - apply Hframe. discriminate.
Defined.

End OptionFacts.

(** ** Comparing float64 values *)
Module CompareFacts.
Import Go.

Lemma SFcompare_antisym (x y : spec_float) :
  x <> S754_nan -> y <> S754_nan ->
  SFcompare y x = option_map CompOpp (SFcompare x y).
Proof.
  intros Hx Hy.
  destruct x as [sx | sx | | sx mx ex], y as [sy | sy | | sy my ey];
    try congruence; simpl;
    try (destruct sx; reflexivity); try (destruct sy; reflexivity);
    try (destruct sx, sy; reflexivity).
  destruct sx, sy; try reflexivity;
    rewrite (Z.compare_antisym ex ey); destruct (ex ?= ey); simpl;
    try reflexivity;
    rewrite (Pos.compare_cont_antisym mx my Eq); reflexivity.
Qed.

(** Away from NaN, "not below" is "at least". *)
Lemma SFltb_false_iff_SFleb (x y : spec_float) :
  x <> S754_nan -> y <> S754_nan ->
  SFltb x y = false <-> SFleb y x = true.
Proof.
  intros Hx Hy. unfold SFltb, SFleb.
  rewrite (SFcompare_antisym x y Hx Hy).
  destruct (SFcompare x y) as [[ | | ] | ] eqn:E; simpl; try (split; congruence).
  destruct x, y; try congruence; simpl in E;
    repeat match type of E with
           | context [if ?b then _ else _] => destruct b
           end; discriminate E.
Qed.

(** The range test of [validate], away from NaN. *)
Lemma range_test (lo hi x : float64) :
  lo <> S754_nan -> hi <> S754_nan -> x <> S754_nan ->
  f64_lt x lo || f64_gt x hi = false <->
  SFleb lo x && SFleb x hi = true.
Proof.
  intros Hlo Hhi Hx. unfold f64_lt, f64_gt.
  rewrite orb_false_iff, andb_true_iff.
  rewrite (SFltb_false_iff_SFleb x lo Hx Hlo).
  rewrite (SFltb_false_iff_SFleb hi x Hhi Hx).
  reflexivity.
Qed.

End CompareFacts.

(** ** package main: validation and the folder command *)
Module MainFacts.
Import Go main.

Section Commands.
Variable NumCPU : int.
Variable action : Type.
Variable tilerProvider : Tiler action * option error.
Variable FindLasFilesInFolder : string -> list string * option error.
Variable eventListener : tiler.TilerCallback action.

(** [validate] either passes and logs nothing, or ends the process with
    one message; which of the two is decided by its five checks. *)
Lemma validate_checks (c : cliOpts) (log : list (event action)) :
  (checks_pass c = true /\ validate c log = (Done tt, log)) \/
  (checks_pass c = false /\
   exists msg, validate c log = (Exited 1, log ++ [EvFatal msg])).
Proof.
  unfold checks_pass, validate, bind, fatal_if, log_Fatal, ret.
  destruct (output c =? "")%string; simpl; [right; split; eauto | ].
  destruct (epsg c <=? 0); simpl; [right; split; eauto | ].
  destruct ((maxDepth c <=? 1) || (maxDepth c >? 20)); simpl;
    [right; split; eauto | ].
  destruct (minPoints c <? 1); simpl; [right; split; eauto | ].
  destruct (f64_lt (resolution c) (f64_of 1 (-1))
            || f64_gt (resolution c) (f64_of 1000 0)); simpl;
    [right; split; eauto | left; split; reflexivity].
Qed.

Lemma accepted_iff_checks (c : cliOpts) :
  accepted action c <-> checks_pass c = true.
Proof.
  split.
  - intros H. specialize (H []).
    destruct (validate_checks c []) as [[Hc _] | [_ [msg E]]]; [exact Hc | ].
    rewrite E in H. discriminate H.
  - intros Hc log.
    destruct (validate_checks c log) as [[_ E] | [Hn _]]; [exact E | congruence].
Qed.

Lemma rejected_iff_checks (c : cliOpts) :
  rejected action c <-> checks_pass c = false.
Proof.
  split.
  - intros H. destruct (H []) as [msg E].
    destruct (validate_checks c []) as [[_ E'] | [Hn _]]; [ | exact Hn].
    rewrite E' in E. discriminate E.
  - intros Hn log.
    destruct (validate_checks c log) as [[Hc _] | [_ E]]; [congruence | exact E].
Qed.

(** Away from a NaN resolution, the checks are the documented ranges. *)
Lemma checks_pass_iff_in_ranges (c : cliOpts) :
  resolution c <> f64_nan ->
  checks_pass c = true <-> in_ranges c.
Proof.
  intros Hr. unfold checks_pass, in_ranges, f64_between.
  rewrite !andb_true_iff, !negb_true_iff.
  rewrite (CompareFacts.range_test (f64_of 1 (-1)) (f64_of 1000 0) (resolution c))
    by (exact Hr || (intros H; vm_compute in H; discriminate H)).
  rewrite orb_false_iff, String.eqb_neq.
  rewrite !Z.leb_gt, Z.gtb_ltb, Z.ltb_ge, Z.ltb_ge.
  rewrite andb_true_iff. intuition lia.
Qed.

(** When the resolution is not NaN, [validate] accepts the options if and
    only if they lie in the documented ranges, and ends the process if they
    do not. *)
Lemma validate_away_from_NaN (c : cliOpts) :
  resolution c <> f64_nan ->
  (accepted action c <-> in_ranges c) /\
  (rejected action c <-> ~ in_ranges c).
Proof.
  intros Hr. rewrite accepted_iff_checks, rejected_iff_checks.
  rewrite <- (checks_pass_iff_in_ranges c Hr).
  split; [reflexivity | ].
  destruct (checks_pass c); split; congruence.
Qed.

Lemma getTilerOptions_accepted (c : cliOpts) (log : list (event action)) :
  accepted action c ->
  getTilerOptions NumCPU action eventListener c log =
  (Done (tilerOptionsOf NumCPU action eventListener c), log).
Proof.
  intros H. unfold getTilerOptions, bind. rewrite (H log). reflexivity.
Qed.

End Commands.

(** The ends of the ranges: depth 2 and 20 and resolution 0.5 and 1000 pass;
    depth 1 and 21, a resolution just below 0.5 or infinite, no output
    folder and the default options (EPSG code -1) end the process. *)
Lemma validate_at_the_bounds (action : Type) :
  let opts depth res := mkCliOpts "out" 4979 depth 1 res f64_zero false false false in
  accepted action (opts 2 (f64_of 1 (-1))) /\
  accepted action (opts 20 (f64_of 1000 0)) /\
  rejected action (opts 1 (f64_of 1 (-1))) /\
  rejected action (opts 21 (f64_of 1000 0)) /\
  rejected action (opts 2 (f64_of 4503599627370495 (-53))) /\
  rejected action (opts 2 (S754_infinity false)) /\
  rejected action (mkCliOpts "" 4979 2 1 (f64_of 20 0) f64_zero false false false) /\
  rejected action defaultCliOptions.
Proof.
  intros opts. rewrite !accepted_iff_checks, !rejected_iff_checks.
  repeat split.
Qed.

(** C5, at the input where the code departs from it.  The options
    [nan_resolution_opts] have a NaN resolution, which lies in no range;
    both comparisons of [validate] with it are false, so [validate] passes
    and [getTilerOptions] hands a NaN grid size to the tiler. *)
Theorem validate_accepts_NaN_resolution (action : Type) :
  accepted action nan_resolution_opts /\
  ~ in_ranges nan_resolution_opts /\
  forall NumCPU listener log,
    getTilerOptions NumCPU action listener nan_resolution_opts log =
      (Done (tilerOptionsOf NumCPU action listener nan_resolution_opts), log) /\
    tiler.gridSize (tilerOptionsOf NumCPU action listener nan_resolution_opts) =
      f64_nan.
Proof.
  assert (Hacc : accepted action nan_resolution_opts)
    by (intros log; reflexivity).
  split; [exact Hacc | split].
  - unfold in_ranges. intros (_ & _ & _ & _ & H). discriminate H.
  - intros NumCPU listener log. split; [ | reflexivity].
    now apply getTilerOptions_accepted.
Qed.

(** Every log [folderCommand] can leave, by the path taken through it. *)
Lemma folderCommand_log
    (NumCPU : int) (action : Type)
    (provider : Tiler action * option error)
    (Find : string -> list string * option error)
    (listener : tiler.TilerCallback action)
    (opts : cliOpts) (folderpath : string) :
  let log := snd (folderCommand NumCPU action provider Find listener opts folderpath []) in
  let tilerOpts := tilerOptionsOf NumCPU action listener opts in
  let files := fst (Find folderpath) in
  let call :=
    if join opts
    then EvProcessFiles files (output opts) (epsg opts) tilerOpts
    else EvProcessFolder folderpath (output opts) (epsg opts) tilerOpts in
  (* the tiler could not be made, the options were refused, or the folder
     could not be listed: no entry point is invoked *)
  ((snd provider <> None \/ ~ accepted action opts \/
    (join opts = true /\ snd (Find folderpath) <> None)) /\
   exists msg, log = [EvFatal msg]) \/
  (* otherwise the one entry point is invoked, and may fail *)
  ((snd provider = None /\ accepted action opts /\
    (join opts = true -> snd (Find folderpath) = None)) /\
   (log = [call] \/ exists msg, log = [call; EvFatal msg])).
Proof.
  intros log tilerOpts files call. subst log tilerOpts files call.
  unfold folderCommand.
  destruct provider as [t [e | ]]; simpl.
  { left. split; [left; discriminate | eexists; reflexivity]. }
  unfold launch, getTilerOptions, bind, ret.
  destruct (validate_checks action opts []) as [[Hc E] | [Hn [msg E]]]; rewrite E.
  2: { left. split; [ | exists msg; reflexivity].
       right; left. rewrite accepted_iff_checks. congruence. }
  apply (proj2 (accepted_iff_checks action opts)) in Hc.
  fold (tilerOptionsOf NumCPU action listener opts).
  destruct (join opts) eqn:Ej.
  - destruct (Find folderpath) as [files [e | ]] eqn:Ef; simpl.
    + left. split; [ | eexists; reflexivity].
      right; right. split; [reflexivity | discriminate].
    + right. split; [auto | ].
      unfold ProcessFiles, bind, emit, ret; simpl.
      match goal with
      | |- context [processFilesResult ?a ?b ?c ?d ?e ?f] =>
          destruct (processFilesResult a b c d e f)
      end; [right; eexists; reflexivity | left; reflexivity].
  - right. split; [split; [reflexivity | split; [exact Hc | discriminate]] | ].
    unfold ProcessFolder, bind, emit, ret; simpl.
    match goal with
    | |- context [processFolderResult ?a ?b ?c ?d ?e ?f] =>
        destruct (processFolderResult a b c d e f)
    end; [right; eexists; reflexivity | left; reflexivity].
Qed.

(** C7.  The folder command, with the tiler made, the options accepted
    and, under [-join], the folder listed: under [-join] it invokes
    [ProcessFiles] once, with the LAS files found in the folder, and never
    [ProcessFolder]; without [-join] it invokes [ProcessFolder] once, with
    the folder path, and never [ProcessFiles].  On every path, also the
    failing ones, the other entry point is not invoked and there is at most
    one invocation. *)
Theorem folderCommand_dispatch
    (NumCPU : int) (action : Type)
    (provider : Tiler action * option error)
    (Find : string -> list string * option error)
    (listener : tiler.TilerCallback action)
    (opts : cliOpts) (folderpath : string) :
  let log := snd (folderCommand NumCPU action provider Find listener opts folderpath []) in
  let tilerOpts := tilerOptionsOf NumCPU action listener opts in
  (forall t files,
     provider = (t, None) ->
     accepted action opts ->
     (join opts = true -> Find folderpath = (files, None)) ->
     invocations log =
       [ if join opts
         then EvProcessFiles files (output opts) (epsg opts) tilerOpts
         else EvProcessFolder folderpath (output opts) (epsg opts) tilerOpts ]) /\
  (join opts = true -> filter is_ProcessFolder log = []) /\
  (join opts = false -> filter is_ProcessFiles log = []) /\
  (List.length (invocations log) <= 1)%nat.
Proof.
  intros log tilerOpts.
  pose proof (folderCommand_log NumCPU action provider Find listener opts folderpath)
    as H. cbv zeta in H. fold log tilerOpts in H.
  destruct H as [[Hwhy [msg Hlog]] | [(Hp & Hacc & Hfind) Hlog]].
  - rewrite Hlog. split; [ | repeat split; simpl; auto].
    intros t files -> Hacc Hfind.
    destruct Hwhy as [Hp | [Hna | [Hj Hf]]].
    + now elim Hp.
    + now elim Hna.
    + rewrite (Hfind Hj) in Hf. now elim Hf.
  - split.
    + intros t files -> _ Hfind'.
      assert (Hfiles : join opts = true -> fst (Find folderpath) = files)
        by (intros Hj; now rewrite (Hfind' Hj)).
      destruct Hlog as [-> | [msg ->]]; destruct (join opts);
        simpl; try rewrite (Hfiles eq_refl); reflexivity.
    + destruct Hlog as [-> | [msg ->]]; destruct (join opts);
        repeat split; simpl; auto; discriminate.
Qed.

(** The folder of the test of the join mode: three LAS files are found, the
    options are those of the test, and the tiler succeeds. *)
Lemma folderCommand_dispatch_witness :
  let t : Tiler unit := mkTiler (fun _ _ _ _ => None) (fun _ _ _ _ => None) in
  let find : string -> list string * option error :=
    fun folder =>
      ([ folder ++ "/test0.las"; folder ++ "/test1.LAS"; folder ++ "/test2.LAS" ]%string,
       None) in
  let listener : tiler.TilerCallback unit := fun _ _ _ _ => tt in
  let opts :=
    mkCliOpts "out" 4979 13 1200 (f64_of 23 (-1)) (f64_of (-1) 0) true true true in
  invocations (snd (folderCommand 8 unit (t, None) find listener opts "tmp" [])) =
    [ EvProcessFiles [ "tmp/test0.las"; "tmp/test1.LAS"; "tmp/test2.LAS" ]%string
        "out" 4979 (tilerOptionsOf 8 unit listener opts) ].
Proof.
  intros t find listener opts.
  apply (proj1 (folderCommand_dispatch 8 unit (t, None) find listener opts "tmp")
           t [ "tmp/test0.las"; "tmp/test1.LAS"; "tmp/test2.LAS" ]%string).
  - reflexivity.
  - intros log. reflexivity.
  - intros _. reflexivity.
Defined.

End MainFacts.

(* ================================================================== *)
(** * Part III: further properties of the same code *)
(* ================================================================== *)

(** ** package geom: special coordinates *)
Module GeomEdgeFacts.
Import Go geom.

Lemma f64_sub_self (x : float64) :
  f64_sub x x = if f64_is_finite x then f64_zero else f64_nan.
Proof.
  destruct x as [s | s | | s m e]; simpl.
  - now destruct s.
  - now destruct s.
  - reflexivity.
  - unfold f64_sub, SFsub. now rewrite Z.sub_diag.
Qed.

(** X1.  A point converted against itself as baseline: on every axis the
    local coordinate is +0 when the coordinate is finite, and NaN when it
    is an infinity or NaN; the attributes are those of the point. *)
Theorem ToPointFromBaseline_self (a : axis) (p : Point64.t) :
  coord32 a (ToPointFromBaseline p p) =
    (if f64_is_finite (coord64 a p) then f32_zero else f64_nan) /\
  Point32.R (ToPointFromBaseline p p) = Point64.R p /\
  Point32.G (ToPointFromBaseline p p) = Point64.G p /\
  Point32.B (ToPointFromBaseline p p) = Point64.B p /\
  Point32.Intensity (ToPointFromBaseline p p) = Point64.Intensity p /\
  Point32.Classification (ToPointFromBaseline p p) = Point64.Classification p.
Proof.
  split; [ | repeat split].
  rewrite GeomFacts.ToPointFromBaseline_coord, f64_sub_self.
  now destruct (f64_is_finite (coord64 a p)).
Qed.

(** *** Conversion of a float64 beyond the float32 range *)

Lemma digits2_pos_lower (m : positive) :
  2 ^ (Zpos (digits2_pos m) - 1) <= Zpos m.
Proof.
  induction m as [m IH | m IH | ]; simpl digits2_pos.
  - rewrite Pos2Z.inj_succ, <- Z.add_1_r, Z.add_simpl_r.
    replace (Zpos (digits2_pos m)) with (Z.succ (Zpos (digits2_pos m) - 1)) by lia.
    rewrite Z.pow_succ_r by lia. lia.
  - rewrite Pos2Z.inj_succ, <- Z.add_1_r, Z.add_simpl_r.
    replace (Zpos (digits2_pos m)) with (Z.succ (Zpos (digits2_pos m) - 1)) by lia.
    rewrite Z.pow_succ_r by lia. lia.
  - simpl. lia.
Qed.

Lemma shr_1_m (mrs : shr_record) :
  0 <= shr_m mrs -> shr_m (shr_1 mrs) = Z.div2 (shr_m mrs).
Proof.
  destruct mrs as [[ | [m | m | ] | m] r t]; simpl; intros H; try reflexivity; lia.
Qed.

(** Shifting right by [k] bits divides the mantissa by [2^k]. *)
Lemma shr_m_iter (k : positive) (mrs : shr_record) :
  0 <= shr_m mrs ->
  shr_m (iter_pos shr_1 k mrs) = shr_m mrs / 2 ^ Zpos k.
Proof.
  intros H. rewrite RoundFacts.iter_pos_is_iter.
  induction k as [ | k IH] using Pos.peano_ind.
  - simpl Pos.iter. rewrite (shr_1_m _ H), Z.div2_div. reflexivity.
  - rewrite Pos.iter_succ, shr_1_m.
    + rewrite IH, Z.div2_div, Z.div_div by lia.
      rewrite Pos2Z.inj_succ, Z.pow_succ_r by lia.
      f_equal. lia.
    + rewrite IH. apply Z.div_pos; lia.
Qed.

(** In the range of the normal float32 numbers the shift to the float32
    precision keeps a positive mantissa positive. *)
Lemma shr_fexp_normal (q e : Z) (l : location) :
  0 < q ->
  - 149 <= Zdigits2 q + e - 24 ->
  0 < shr_m (fst (shr_fexp prec32 emax32 q e l)) /\
  e <= snd (shr_fexp prec32 emax32 q e l) /\
  Zdigits2 q + e - 24 <= snd (shr_fexp prec32 emax32 q e l).
Proof.
  intros Hq Hn. destruct q as [ | q | q]; try lia.
  unfold shr_fexp, fexp, emin, prec32, emax32. simpl Zdigits2 in *.
  rewrite Z.max_l by lia.
  assert (Hm : shr_m (shr_record_of_loc (Zpos q) l) = Zpos q)
    by (destruct l as [ | [ | | ]]; reflexivity).
  destruct (Zpos (digits2_pos q) + e - 24 - e) as [ | k | k] eqn:Ek;
    cbn [shr fst snd].
  - rewrite Hm. lia.
  - rewrite shr_m_iter, Hm by (rewrite Hm; lia).
    split; [ | lia].
    apply Z.div_str_pos. split; [lia | ].
    pose proof (digits2_pos_lower q) as Hlow.
    assert (2 ^ Zpos k <= 2 ^ (Zpos (digits2_pos q) - 1))
      by (apply Z.pow_le_mono_r; lia).
    lia.
  - rewrite Hm. lia.
Qed.

Lemma round_nearest_even_ge (m : Z) (l : location) :
  m <= round_nearest_even m l.
Proof.
  destruct l as [ | [ | | ]]; simpl; try lia.
  destruct (Z.even m); lia.
Qed.

Lemma binary_round_aux_overflow (s : bool) (q : positive) (e : Z) :
  128 < Zpos (digits2_pos q) + e ->
  binary_round_aux prec32 emax32 s (Zpos q) e loc_Exact = S754_infinity s.
Proof.
  intros Hbig. unfold binary_round_aux.
  destruct (shr_fexp_normal (Zpos q) e loc_Exact) as (Hm1 & _ & He1);
    [lia | cbn [Zdigits2]; lia | ].
  destruct (shr_fexp prec32 emax32 (Zpos q) e loc_Exact) as [mrs1 e1].
  cbn [fst snd Zdigits2] in Hm1, He1.
  pose proof (round_nearest_even_ge (shr_m mrs1) (loc_of_shr_record mrs1)) as Hr.
  set (q1 := round_nearest_even (shr_m mrs1) (loc_of_shr_record mrs1)) in *.
  assert (Hd : 1 <= Zdigits2 q1) by (destruct q1; cbn [Zdigits2]; lia).
  destruct (shr_fexp_normal q1 e1 loc_Exact) as (Hm2 & He2 & _); [lia | lia | ].
  destruct (shr_fexp prec32 emax32 q1 e1 loc_Exact) as [mrs2 e2].
  cbn [fst snd] in Hm2, He2.
  destruct (shr_m mrs2) as [ | m2 | m2]; try lia.
  destruct (Z.leb_spec e2 (emax32 - prec32)) as [Hle | _]; [ | reflexivity].
  unfold emax32, prec32 in Hle. lia.
Qed.

(** A finite float64 of magnitude [2^128] or more converts to the float32
    infinity of its sign. *)
Lemma to_float32_overflow (s : bool) (m : positive) (e : Z) :
  128 < Zpos (digits2_pos m) + e ->
  to_float32 (S754_finite s m e) = S754_infinity s.
Proof.
  intros Hbig. unfold to_float32, binary_round, shl_align.
  destruct (fexp prec32 emax32 (Zpos (digits2_pos m) + e) - e) as [ | k | k] eqn:Ek;
    apply binary_round_aux_overflow; [exact Hbig | exact Hbig | ].
  rewrite RoundFacts.digits2_pos_shl, Pos2Z.inj_add. lia.
Qed.

(** X2.  No offset is refused for its size.  On an axis where the float64
    difference [raw - baseline] is finite and of magnitude [2^128] or more
    (it is [m * 2^e] with [m] of [d] bits and [d + e > 128]), the local
    coordinate is the float32 infinity of the sign of the difference. *)
Theorem ToPointFromBaseline_overflow
    (a : axis) (p baseline : Point64.t) (s : bool) (m : positive) (e : Z) :
  f64_sub (coord64 a p) (coord64 a baseline) = S754_finite s m e ->
  128 < Zpos (digits2_pos m) + e ->
  coord32 a (ToPointFromBaseline p baseline) = S754_infinity s.
Proof.
  intros Hd Hbig.
  rewrite GeomFacts.ToPointFromBaseline_coord, Hd.
  now apply to_float32_overflow.
Qed.

(** The raw coordinate 2^130 against the baseline -1. *)
Lemma ToPointFromBaseline_overflow_witness :
  let p := Point64.mk (f64_of 1 130) f64_zero f64_zero x00 x00 x00 x00 x00 in
  let b := Point64.mk (f64_of (-1) 0) f64_zero f64_zero x00 x00 x00 x00 x00 in
  coord32 AxisX (ToPointFromBaseline p b) = S754_infinity false.
Proof.
  intros p b.
  apply (ToPointFromBaseline_overflow AxisX p b false 4503599627370496 78);
    [reflexivity | reflexivity].
Defined.

End GeomEdgeFacts.

(** ** package las: a reader at any position *)
Module LasCursorFacts.
Import Go geom las las.MockLasReader.

(** The slice of an in-bounds reader whose cursor is before the end, cut
    at the cursor. *)
Lemma cut_at_cursor (m : t) :
  in_bounds m -> Cur m < len (Pts m) ->
  exists a rest,
    Pts m = firstn (Z.to_nat (Cur m)) (Pts m) ++ a :: rest /\
    ahead m = a :: rest /\
    len (firstn (Z.to_nat (Cur m)) (Pts m)) = Cur m.
Proof.
  unfold in_bounds, ahead, len. intros [[H0 _] _] Hlt.
  assert (Hn : (Z.to_nat (Cur m) < List.length (Pts m))%nat) by lia.
  destruct (skipn (Z.to_nat (Cur m)) (Pts m)) as [ | a rest] eqn:Es.
  - apply (f_equal (@List.length _)) in Es. rewrite length_skipn in Es.
    simpl in Es. lia.
  - exists a, rest. repeat split.
    + now rewrite <- Es, firstn_skipn.
    + rewrite length_firstn. lia.
Qed.

(** One call before the end: the point under the cursor, and the cursor
    one further. *)
Lemma GetNext_in_bounds (m : t) :
  in_bounds m -> Cur m < len (Pts m) ->
  exists a,
    ahead m = a :: ahead (moved 1 m) /\
    GetNext m = Returns (stored a, moved 1 m) /\
    in_bounds (moved 1 m).
Proof.
  intros Hb Hlt.
  destruct (cut_at_cursor m Hb Hlt) as (a & rest & Hp & Ha & Hl).
  destruct Hb as [[H0 Hle] Hmax].
  destruct m as [cur pts srid]; simpl in *.
  exists a.
  assert (Hmv : moved 1 (mk cur pts srid) = mk (cur + 1) pts srid).
  { unfold moved; simpl. f_equal. lia. }
  rewrite Hmv. repeat split; simpl; try lia.
  - unfold ahead in *; simpl in *. rewrite Ha. f_equal.
    replace (Z.to_nat (cur + 1)) with (S (Z.to_nat cur)) by lia.
    rewrite <- (Nat.add_1_l (Z.to_nat cur)), <- skipn_skipn, Ha. reflexivity.
  - pose proof (LasFacts.GetNext_stored (firstn (Z.to_nat cur) pts) a rest srid) as H.
    rewrite <- Hp, Hl in H. rewrite (H Hmax). do 3 f_equal.
    unfold len in *. rewrite length_app. simpl. lia.
Qed.

(** X3.  A reader whose cursor is on a stored point or just past the last
    one: any number [k] of calls of [GetNext] returns, without a panic;
    the calls return the points from the cursor on, each once and in
    storage order, and then the error; they leave the points and the SRID
    as they were and the cursor [k] further, but not beyond the end. *)
Theorem GetNext_from_any_position (k : nat) (m : t) :
  in_bounds m ->
  GetNextN k m = Returns (reads_of (ahead m) k, moved k m) /\
  in_bounds (moved k m) /\
  NumberOfPoints (moved k m) = NumberOfPoints m /\
  GetSrid (moved k m) = GetSrid m.
Proof.
  intros Hb. split; [ | split; [ | split; reflexivity]].
  - revert m Hb. induction k as [ | k IH]; intros m Hb.
    + simpl. do 2 f_equal. destruct Hb as [[H0 Hle] _].
      destruct m as [cur pts srid]; unfold moved; simpl in *. f_equal. lia.
    + cbn [GetNextN].
      destruct (Z.lt_ge_cases (Cur m) (len (Pts m))) as [Hlt | Hge].
      * destruct (GetNext_in_bounds m Hb Hlt) as (a & Ha & Hg & Hb').
        rewrite Hg, (IH _ Hb'), Ha. cbn [reads_of]. do 2 f_equal.
        unfold moved; simpl. f_equal.
        destruct Hb as [[H0 Hle] _]. lia.
      * rewrite (LasFacts.GetNext_at_end m Hge), (IH m Hb).
        assert (Hahead : ahead m = []).
        { unfold ahead. apply skipn_all2. unfold len in Hge. lia. }
        rewrite Hahead. cbn [reads_of]. do 2 f_equal.
        unfold moved. f_equal. lia.
  - destruct Hb as [[H0 Hle] Hmax]. unfold in_bounds, moved; simpl. lia.
Qed.

(** The three sample points read from the second one on: two points, then
    two errors. *)
Lemma GetNext_from_any_position_witness :
  let m := mk 1 (Pts three_points) (Srid three_points) in
  GetNextN 4 m = Returns (reads_of (ahead m) 4, moved 4 m) /\
  in_bounds (moved 4 m) /\
  NumberOfPoints (moved 4 m) = NumberOfPoints m /\
  GetSrid (moved 4 m) = GetSrid m.
Proof.
  intros m. apply (GetNext_from_any_position 4 m).
  unfold in_bounds. split; [split | ]; now vm_compute.
Defined.

(** X4.  A reader whose cursor is negative panics on [GetNext], whatever
    it stores: the cursor is incremented first and the slice is then read
    at a negative index. *)
Theorem GetNext_negative_cursor_panics (m : t) :
  is_int (Cur m) -> Cur m < 0 ->
  GetNext m = Panics "index out of range".
Proof.
  unfold is_int, MinInt, MaxInt. intros Hint Hneg.
  unfold GetNext; simpl.
  assert (Hlen : 0 <= len (Pts m)) by (unfold len; lia).
  destruct (Z.ltb_spec (Cur m) (len (Pts m))) as [_ | H]; [ | lia].
  rewrite (LasFacts.int_wrap_id (Cur m + 1))
    by (unfold is_int, MinInt, MaxInt; lia).
  replace (Cur m + 1 - 1) with (Cur m) by lia.
  rewrite LasFacts.int_wrap_id by (unfold is_int, MinInt, MaxInt; lia).
  unfold index. destruct (Z.ltb_spec (Cur m) 0) as [_ | H]; [reflexivity | lia].
Qed.

Lemma GetNext_negative_cursor_panics_witness :
  GetNext (mk (-1) (Pts three_points) 4979) = Panics "index out of range".
Proof.
  apply (GetNext_negative_cursor_panics (mk (-1) (Pts three_points) 4979));
    now vm_compute.
Defined.

End LasCursorFacts.

(** ** package tiler: what a list of options amounts to *)
Module OptionListFacts.
Import Go tiler.

Lemma field_eqb_eq (f g : field) : field_eqb f g = true <-> f = g.
Proof. destruct f, g; simpl; split; congruence. Qed.

(** One option function, read at any field. *)
Lemma fieldOf_optFn {action : Type} (c : optCall action) (f : field)
    (o : TilerOptions action) :
  fieldOf f (optFn c o) =
  if field_eqb (designated c) f then argOf c else fieldOf f o.
Proof. destruct c, f; reflexivity. Qed.

Lemma fieldOf_fold {action : Type} (cs : list (optCall action)) (f : field)
    (o : TilerOptions action) :
  fieldOf f (fold_left (fun opts fn => fn opts) (map optFn cs) o) =
  match lastCallFor f cs with
  | Some c => argOf c
  | None => fieldOf f o
  end.
Proof.
  revert o; induction cs as [ | c cs IH]; intros o; [reflexivity | ].
  simpl. rewrite IH.
  destruct (lastCallFor f cs); [reflexivity | ].
  rewrite fieldOf_optFn. now destruct (field_eqb (designated c) f).
Qed.

(** [lastCallFor] finds nothing exactly when no call is for the field. *)
Lemma lastCallFor_None {action : Type} (cs : list (optCall action)) (f : field) :
  lastCallFor f cs = None <-> forall c, In c cs -> designated c <> f.
Proof.
  induction cs as [ | c cs IH]; simpl.
  - split; [intros _ c [] | reflexivity].
  - destruct (lastCallFor f cs) as [c' | ].
    + split; [discriminate | ]. intros H.
      assert (Hn : Some c' = None) by (apply IH; intros x Hx; apply H; now right).
      discriminate Hn.
    + destruct (field_eqb (designated c) f) eqn:E.
      * split; [discriminate | ]. intros H.
        apply field_eqb_eq in E. elim (H c); [now left | exact E].
      * split; [ | reflexivity]. intros _ x [<- | Hx].
        -- intros Heq. apply field_eqb_eq in Heq. congruence.
        -- now apply IH.
Qed.

(** X5.  The options built from any list of calls of the [With...]
    functions: every field holds the argument of the last call in the list
    for that field, and its default when the list has no call for it. *)
Theorem NewTilerOptions_field
    (NumCPU : int) (action : Type) (cs : list (optCall action)) (f : field) :
  (forall before c after,
     cs = before ++ c :: after ->
     designated c = f ->
     (forall c', In c' after -> designated c' <> f) ->
     fieldOf f (NewTilerOptions NumCPU (map optFn cs)) = argOf c) /\
  ((forall c, In c cs -> designated c <> f) ->
   fieldOf f (NewTilerOptions NumCPU (map optFn cs)) =
   fieldOf f (NewDefaultTilerOptions NumCPU)).
Proof.
  unfold NewTilerOptions. split.
  - intros before c after -> Hd Hno.
    rewrite map_app, fold_left_app. cbn [map fold_left].
    rewrite (fieldOf_fold after f).
    rewrite (proj2 (lastCallFor_None after f) Hno), fieldOf_optFn.
    now rewrite (proj2 (field_eqb_eq _ _) Hd).
  - intros Hno. rewrite fieldOf_fold.
    now rewrite (proj2 (lastCallFor_None cs f) Hno).
Qed.

(** Depth 13, grid size 11.5, then depth 7: the depth is 7, the grid size
    11.5 and the worker count the default. *)
Lemma NewTilerOptions_field_witness :
  let cs := [ CallWithMaxDepth 13; CallWithGridSize (f64_of 23 (-1));
              CallWithMaxDepth (action := unit) 7 ] in
  fieldOf FmaxDepth (NewTilerOptions 8 (map optFn cs)) = VInt 7 /\
  fieldOf FnumWorkers (NewTilerOptions 8 (map optFn cs)) = VInt 8.
Proof.
  intros cs. split.
  - apply (proj1 (NewTilerOptions_field 8 unit cs FmaxDepth)
             [ CallWithMaxDepth 13; CallWithGridSize (f64_of 23 (-1)) ]
             (CallWithMaxDepth 7) []);
      [reflexivity | reflexivity | intros c' []].
  - apply (proj2 (NewTilerOptions_field 8 unit cs FnumWorkers)).
    intros c Hc. simpl in Hc.
    repeat (destruct Hc as [<- | Hc]; [discriminate | ]). destruct Hc.
Defined.

End OptionListFacts.

(** ** package main: what the two commands do on every path *)
Module CommandFacts.
Import Go main.

Section Commands.
Variable NumCPU : int.
Variable action : Type.
Variable Find : string -> list string * option error.
Variable listener : tiler.TilerCallback action.

(** The tiler could not be made: nothing else is done. *)
Lemma provider_failure (t : Tiler action) (e : error) (opts : cliOpts)
    (path : string) :
  fileCommand NumCPU action (t, Some e) listener opts path [] =
    (Exited 1, [EvFatal e]) /\
  folderCommand NumCPU action (t, Some e) Find listener opts path [] =
    (Exited 1, [EvFatal e]).
Proof. split; reflexivity. Qed.

(** The options were refused: the message of [validate] is all there is. *)
Lemma refused_options (t : Tiler action) (opts : cliOpts) (path msg : string) :
  validate (action := action) opts [] = (Exited 1, [EvFatal msg]) ->
  fileCommand NumCPU action (t, None) listener opts path [] =
    (Exited 1, [EvFatal msg]) /\
  folderCommand NumCPU action (t, None) Find listener opts path [] =
    (Exited 1, [EvFatal msg]).
Proof.
  intros E. unfold fileCommand, folderCommand; simpl.
  unfold launch, getTilerOptions, bind, ret. rewrite E. split; reflexivity.
Qed.

Lemma fileCommand_runs (t : Tiler action) (opts : cliOpts) (filepath : string) :
  accepted action opts ->
  let tilerOpts := tilerOptionsOf NumCPU action listener opts in
  fileCommand NumCPU action (t, None) listener opts filepath [] =
  ended (EvProcessFiles [filepath] (output opts) (epsg opts) tilerOpts)
    (processFilesResult action t [filepath] (output opts) (epsg opts) tilerOpts).
Proof.
  intros Hacc tilerOpts. unfold fileCommand; simpl.
  unfold launch, getTilerOptions, bind, ret. rewrite (Hacc []).
  fold (tilerOptionsOf NumCPU action listener opts). fold tilerOpts.
  unfold ProcessFiles, bind, emit, ret, ended; simpl.
  now destruct (processFilesResult action t [filepath] (output opts) (epsg opts) tilerOpts).
Qed.

Lemma folderCommand_runs_joined (t : Tiler action) (opts : cliOpts)
    (folderpath : string) (files : list string) :
  accepted action opts ->
  join opts = true ->
  Find folderpath = (files, None) ->
  let tilerOpts := tilerOptionsOf NumCPU action listener opts in
  folderCommand NumCPU action (t, None) Find listener opts folderpath [] =
  ended (EvProcessFiles files (output opts) (epsg opts) tilerOpts)
    (processFilesResult action t files (output opts) (epsg opts) tilerOpts).
Proof.
  intros Hacc Hj Hf tilerOpts. unfold folderCommand; simpl.
  unfold launch, getTilerOptions, bind, ret. rewrite (Hacc []), Hj, Hf.
  fold (tilerOptionsOf NumCPU action listener opts). fold tilerOpts.
  unfold ProcessFiles, bind, emit, ret, ended; simpl.
  now destruct (processFilesResult action t files (output opts) (epsg opts) tilerOpts).
Qed.

Lemma folderCommand_runs_apart (t : Tiler action) (opts : cliOpts)
    (folderpath : string) :
  accepted action opts ->
  join opts = false ->
  let tilerOpts := tilerOptionsOf NumCPU action listener opts in
  folderCommand NumCPU action (t, None) Find listener opts folderpath [] =
  ended (EvProcessFolder folderpath (output opts) (epsg opts) tilerOpts)
    (processFolderResult action t folderpath (output opts) (epsg opts) tilerOpts).
Proof.
  intros Hacc Hj tilerOpts. unfold folderCommand; simpl.
  unfold launch, getTilerOptions, bind, ret. rewrite (Hacc []), Hj.
  fold (tilerOptionsOf NumCPU action listener opts). fold tilerOpts.
  unfold ProcessFolder, bind, emit, ret, ended; simpl.
  now destruct (processFolderResult action t folderpath (output opts) (epsg opts) tilerOpts).
Qed.

Lemma folderCommand_listing_fails (t : Tiler action) (opts : cliOpts)
    (folderpath : string) (files : list string) (e : error) :
  accepted action opts ->
  join opts = true ->
  Find folderpath = (files, Some e) ->
  folderCommand NumCPU action (t, None) Find listener opts folderpath [] =
  (Exited 1, [EvFatal e]).
Proof.
  intros Hacc Hj Hf. unfold folderCommand; simpl.
  unfold launch, getTilerOptions, bind, ret. rewrite (Hacc []), Hj, Hf.
  reflexivity.
Qed.

End Commands.

(** X6.  The file command, with the tiler made and the options accepted,
    invokes [ProcessFiles] once, with the one file it was given, the output
    folder, the EPSG code and the options of the command line.  On every
    path, also the failing ones, it never invokes [ProcessFolder] and there
    is at most one invocation. *)
Theorem fileCommand_dispatch
    (NumCPU : int) (action : Type)
    (provider : Tiler action * option error)
    (listener : tiler.TilerCallback action)
    (opts : cliOpts) (filepath : string) :
  let log := snd (fileCommand NumCPU action provider listener opts filepath []) in
  (forall t,
     provider = (t, None) ->
     accepted action opts ->
     invocations log =
       [ EvProcessFiles [filepath] (output opts) (epsg opts)
           (tilerOptionsOf NumCPU action listener opts) ]) /\
  filter is_ProcessFolder log = [] /\
  (List.length (invocations log) <= 1)%nat.
Proof.
  intros log. subst log. destruct provider as [t [e | ]].
  - rewrite (proj1 (provider_failure NumCPU action (fun _ => ([], None))
                      listener t e opts filepath)).
    split; [discriminate | split; [reflexivity | simpl; lia]].
  - destruct (MainFacts.validate_checks action opts []) as [[Hc _] | [Hn [msg E]]].
    + apply (proj2 (MainFacts.accepted_iff_checks action opts)) in Hc.
      rewrite (fileCommand_runs NumCPU action listener t opts filepath Hc).
      unfold ended.
      destruct (processFilesResult action t [filepath] (output opts) (epsg opts) _);
        (split; [intros; reflexivity | split; [reflexivity | simpl; lia]]).
    + rewrite (proj1 (refused_options NumCPU action (fun _ => ([], None))
                        listener t opts filepath msg E)).
      split; [ | split; [reflexivity | simpl; lia]].
      intros t' _ Hacc. apply MainFacts.accepted_iff_checks in Hacc. congruence.
Qed.

(** The file of the test of the file mode. *)
Lemma fileCommand_dispatch_witness :
  let t : Tiler unit := mkTiler (fun _ _ _ _ => None) (fun _ _ _ _ => None) in
  let listener : tiler.TilerCallback unit := fun _ _ _ _ => tt in
  let opts :=
    mkCliOpts "out" 4979 13 1200 (f64_of 23 (-1)) (f64_of (-1) 0) true true false in
  invocations (snd (fileCommand 8 unit (t, None) listener opts "myfile.las" [])) =
    [ EvProcessFiles [ "myfile.las"%string ] "out" 4979
        (tilerOptionsOf 8 unit listener opts) ].
Proof.
  intros t listener opts.
  apply (proj1 (fileCommand_dispatch 8 unit (t, None) listener opts "myfile.las") t).
  - reflexivity.
  - intros log. reflexivity.
Defined.

(** X7.  Options that [validate] refuses never reach the tiler: whatever
    the tiler provider and the folder listing return, both commands end
    the process with status 1 and invoke no entry point. *)
Theorem refused_options_never_reach_the_tiler
    (NumCPU : int) (action : Type)
    (provider : Tiler action * option error)
    (Find : string -> list string * option error)
    (listener : tiler.TilerCallback action)
    (opts : cliOpts) (path : string) :
  rejected action opts ->
  (fst (fileCommand NumCPU action provider listener opts path []) = Exited 1 /\
   invocations (snd (fileCommand NumCPU action provider listener opts path [])) = []) /\
  (fst (folderCommand NumCPU action provider Find listener opts path []) = Exited 1 /\
   invocations (snd (folderCommand NumCPU action provider Find listener opts path [])) = []).
Proof.
  intros Hrej. destruct provider as [t [e | ]].
  - destruct (provider_failure NumCPU action Find listener t e opts path) as [-> ->].
    repeat split.
  - destruct (Hrej []) as [msg E]. simpl in E.
    destruct (refused_options NumCPU action Find listener t opts path msg E) as [-> ->].
    repeat split.
Qed.

(** No output folder, a tiler that would succeed, with and without join. *)
Lemma refused_options_never_reach_the_tiler_witness :
  let t : Tiler unit := mkTiler (fun _ _ _ _ => None) (fun _ _ _ _ => None) in
  let find : string -> list string * option error := fun _ => (["a.las"%string], None) in
  let listener : tiler.TilerCallback unit := fun _ _ _ _ => tt in
  let opts := mkCliOpts "" 4979 13 1200 (f64_of 20 0) f64_zero false false true in
  fst (folderCommand 8 unit (t, None) find listener opts "tmp" []) = Exited 1 /\
  invocations (snd (folderCommand 8 unit (t, None) find listener opts "tmp" [])) = [].
Proof.
  intros t find listener opts.
  apply (refused_options_never_reach_the_tiler 8 unit (t, None) find listener opts "tmp").
  apply MainFacts.rejected_iff_checks. reflexivity.
Defined.

(** X8.  With the tiler made, the options accepted and, under join, the
    folder listed, a command ends as the entry point it invoked answers:
    on the nil error it returns with that one invocation in its log; on an
    error it ends the process with status 1, the error logged by
    [log.Fatal] after the invocation. *)
Theorem tiler_answer_decides_the_end
    (NumCPU : int) (action : Type) (t : Tiler action)
    (Find : string -> list string * option error)
    (listener : tiler.TilerCallback action)
    (opts : cliOpts) (path : string) (files : list string) :
  accepted action opts ->
  (join opts = true -> Find path = (files, None)) ->
  let tilerOpts := tilerOptionsOf NumCPU action listener opts in
  fileCommand NumCPU action (t, None) listener opts path [] =
    ended (EvProcessFiles [path] (output opts) (epsg opts) tilerOpts)
      (processFilesResult action t [path] (output opts) (epsg opts) tilerOpts) /\
  folderCommand NumCPU action (t, None) Find listener opts path [] =
    (if join opts
     then ended (EvProcessFiles files (output opts) (epsg opts) tilerOpts)
            (processFilesResult action t files (output opts) (epsg opts) tilerOpts)
     else ended (EvProcessFolder path (output opts) (epsg opts) tilerOpts)
            (processFolderResult action t path (output opts) (epsg opts) tilerOpts)).
Proof.
  intros Hacc Hfind tilerOpts. split.
  - now apply fileCommand_runs.
  - destruct (join opts) eqn:Ej.
    + now apply folderCommand_runs_joined; auto.
    + now apply folderCommand_runs_apart.
Qed.

(** A tiler whose [ProcessFolder] fails with "disk full". *)
Lemma tiler_answer_decides_the_end_witness :
  let t : Tiler unit :=
    mkTiler (fun _ _ _ _ => None) (fun _ _ _ _ => Some "disk full"%string) in
  let find : string -> list string * option error := fun _ => ([], None) in
  let listener : tiler.TilerCallback unit := fun _ _ _ _ => tt in
  let opts := mkCliOpts "out" 4979 13 1200 (f64_of 20 0) f64_zero false false false in
  folderCommand 8 unit (t, None) find listener opts "tmp" [] =
    (Exited 1,
     [ EvProcessFolder "tmp" "out" 4979 (tilerOptionsOf 8 unit listener opts);
       EvFatal "disk full" ]).
Proof.
  intros t find listener opts.
  refine (proj2 (tiler_answer_decides_the_end 8 unit t find listener opts "tmp" []
                   _ _)).
  - intros log. reflexivity.
  - discriminate.
Defined.

(** X9.  Failures before the dispatch.  When the tiler provider fails, both
    commands end the process with its error, for any options, valid or not:
    the provider is called before [validate].  When under join the folder
    cannot be listed, the folder command ends the process with the error
    of the listing and invokes nothing, whatever files came with the
    error. *)
Theorem failures_before_dispatch
    (NumCPU : int) (action : Type) (t : Tiler action)
    (Find : string -> list string * option error)
    (listener : tiler.TilerCallback action)
    (opts : cliOpts) (path : string) (files : list string) (e : error) :
  (fileCommand NumCPU action (t, Some e) listener opts path [] =
     (Exited 1, [EvFatal e]) /\
   folderCommand NumCPU action (t, Some e) Find listener opts path [] =
     (Exited 1, [EvFatal e])) /\
  (accepted action opts ->
   join opts = true ->
   Find path = (files, Some e) ->
   folderCommand NumCPU action (t, None) Find listener opts path [] =
     (Exited 1, [EvFatal e])).
Proof.
  split; [apply provider_failure | apply folderCommand_listing_fails].
Qed.

(** A folder that does not exist, under join. *)
Lemma failures_before_dispatch_witness :
  let t : Tiler unit := mkTiler (fun _ _ _ _ => None) (fun _ _ _ _ => None) in
  let find : string -> list string * option error :=
    fun _ => ([], Some "no such folder"%string) in
  let listener : tiler.TilerCallback unit := fun _ _ _ _ => tt in
  let opts := mkCliOpts "out" 4979 13 1200 (f64_of 20 0) f64_zero false false true in
  folderCommand 8 unit (t, None) find listener opts "tmp" [] =
    (Exited 1, [EvFatal "no such folder"]).
Proof.
  intros t find listener opts.
  apply (proj2 (failures_before_dispatch 8 unit t find listener opts "tmp" []
                  "no such folder"%string)).
  - intros log. reflexivity.
  - reflexivity.
  - reflexivity.
Defined.

(** X10.  [getTilerOptions] hands the flags of the command line to the
    tiler.  For accepted options it returns, logging nothing, options whose
    grid size, maximum depth, elevation offset, minimum number of points
    per tile, eight-bit colour and geoid fields are the resolution, depth,
    z offset, minimum points, eight-bit and geoid flags, whose callback is
    [eventListener] and whose worker count is the number of CPUs of the
    host, which no flag sets.  For refused options it returns no options:
    the process ends. *)
Theorem getTilerOptions_carries_the_flags
    (NumCPU : int) (action : Type) (listener : tiler.TilerCallback action)
    (c : cliOpts) (log : list (event action)) :
  (accepted action c ->
   exists o,
     getTilerOptions NumCPU action listener c log = (Done o, log) /\
     tiler.gridSize o = resolution c /\
     tiler.maxDepth o = maxDepth c /\
     tiler.elevationOffset o = zOffset c /\
     tiler.minPointsPerTile o = minPoints c /\
     tiler.eightBitColors o = eightBit c /\
     tiler.geoidElevation o = geoid c /\
     tiler.callback o = Some listener /\
     tiler.numWorkers o = NumCPU) /\
  (rejected action c ->
   exists msg,
     getTilerOptions NumCPU action listener c log =
       (Exited 1, log ++ [EvFatal msg])).
Proof.
  split.
  - intros Hacc. exists (tilerOptionsOf NumCPU action listener c).
    split; [now apply MainFacts.getTilerOptions_accepted | repeat split].
  - intros Hrej. destruct (Hrej log) as [msg E]. exists msg.
    unfold getTilerOptions, bind. now rewrite E.
Qed.

(** The flags of the tests: all eight fields, on a host with 8 CPUs. *)
Lemma getTilerOptions_carries_the_flags_witness :
  let listener : tiler.TilerCallback unit := fun _ _ _ _ => tt in
  let c :=
    mkCliOpts "out" 4979 13 1200 (f64_of 23 (-1)) (f64_of (-1) 0) true true false in
  exists o,
    getTilerOptions 8 unit listener c [] = (Done o, []) /\
    tiler.gridSize o = f64_of 23 (-1) /\
    tiler.maxDepth o = 13 /\
    tiler.elevationOffset o = f64_of (-1) 0 /\
    tiler.minPointsPerTile o = 1200 /\
    tiler.eightBitColors o = true /\
    tiler.geoidElevation o = true /\
    tiler.callback o = Some listener /\
    tiler.numWorkers o = 8.
Proof.
  intros listener c.
  apply (proj1 (getTilerOptions_carries_the_flags 8 unit listener c [])).
  intros log. reflexivity.
Defined.

End CommandFacts.

(** ** package main: what [validate] reports and what it looks at *)
Module ValidateFacts.
Import Go main.

(** X11.  [validate] reports the first check that fails, in the order
    output folder, EPSG code, depth, minimum points, resolution, and only
    that one: it logs one message and ends the process with status 1.
    (A depth of 1 is refused with "depth should be between 1 and 20", and a
    resolution below 0.5 with "resolution should be between 1 and 1000
    meters".) *)
Theorem validate_reports_the_first_failure
    (action : Type) (c : cliOpts) (log : list (event action)) :
  (output c = ""%string ->
   validate c log = (Exited 1, log ++ [EvFatal "output flag must be set"])) /\
  (output c <> ""%string -> epsg c <= 0 ->
   validate c log = (Exited 1, log ++ [EvFatal "epsg code is invalid"])) /\
  (output c <> ""%string -> 0 < epsg c ->
   maxDepth c <= 1 \/ 20 < maxDepth c ->
   validate c log =
     (Exited 1, log ++ [EvFatal "depth should be between 1 and 20"])) /\
  (output c <> ""%string -> 0 < epsg c -> 2 <= maxDepth c <= 20 ->
   minPoints c < 1 ->
   validate c log =
     (Exited 1, log ++ [EvFatal "min-points-per-tile should be at least 1"])) /\
  (output c <> ""%string -> 0 < epsg c -> 2 <= maxDepth c <= 20 ->
   1 <= minPoints c ->
   f64_lt (resolution c) (f64_of 1 (-1)) = true \/
   f64_gt (resolution c) (f64_of 1000 0) = true ->
   validate c log =
     (Exited 1,
      log ++ [EvFatal "resolution should be between 1 and 1000 meters"])).
Proof.
  unfold validate, bind, fatal_if, log_Fatal, ret.
  repeat split.
  - intros ->. reflexivity.
  - intros Ho He. apply String.eqb_neq in Ho. rewrite Ho.
    apply Z.leb_le in He. now rewrite He.
  - intros Ho He Hd. apply String.eqb_neq in Ho. rewrite Ho.
    apply Z.leb_gt in He. rewrite He.
    assert (E : (maxDepth c <=? 1) || (maxDepth c >? 20) = true).
    { rewrite Z.gtb_ltb. apply orb_true_iff.
      destruct Hd; [left; now apply Z.leb_le | right; now apply Z.ltb_lt]. }
    now rewrite E.
  - intros Ho He Hd Hm. apply String.eqb_neq in Ho. rewrite Ho.
    apply Z.leb_gt in He. rewrite He.
    assert (E : (maxDepth c <=? 1) || (maxDepth c >? 20) = false).
    { rewrite Z.gtb_ltb. apply orb_false_iff.
      split; [apply Z.leb_gt | apply Z.ltb_ge]; lia. }
    rewrite E. apply Z.ltb_lt in Hm. now rewrite Hm.
  - intros Ho He Hd Hm Hr. apply String.eqb_neq in Ho. rewrite Ho.
    apply Z.leb_gt in He. rewrite He.
    assert (E : (maxDepth c <=? 1) || (maxDepth c >? 20) = false).
    { rewrite Z.gtb_ltb. apply orb_false_iff.
      split; [apply Z.leb_gt | apply Z.ltb_ge]; lia. }
    rewrite E. apply Z.ltb_ge in Hm. rewrite Hm.
    apply orb_true_iff in Hr. now rewrite Hr.
Qed.

(** No output folder and a depth of 1: only the output folder is named. *)
Lemma validate_reports_the_first_failure_witness :
  validate (action := unit)
    (mkCliOpts "" 4979 1 0 (f64_of 20 0) f64_zero false false false) [] =
  (Exited 1, [EvFatal "output flag must be set"]).
Proof.
  apply (proj1 (validate_reports_the_first_failure unit
                  (mkCliOpts "" 4979 1 0 (f64_of 20 0) f64_zero false false false) [])).
  reflexivity.
Defined.

(** X12.  What a user must give.  With the depth, the minimum number of
    points and the resolution left at their defaults, the options are
    accepted exactly when an output folder is given and the EPSG code is
    positive; the z offset and the geoid, eight-bit and join flags are not
    looked at, so that any z offset, NaN and the infinities included, is
    accepted.  The default options themselves are refused. *)
Theorem defaults_need_output_and_epsg
    (action : Type) (out : string) (code : int)
    (z : float64) (g e8 j : bool) :
  (accepted action
     (mkCliOpts out code (maxDepth defaultCliOptions) (minPoints defaultCliOptions)
        (resolution defaultCliOptions) z g e8 j) <->
   out <> ""%string /\ 0 < code) /\
  rejected action defaultCliOptions.
Proof.
  split.
  - rewrite MainFacts.accepted_iff_checks.
    assert (E : checks_pass
                  (mkCliOpts out code (maxDepth defaultCliOptions)
                     (minPoints defaultCliOptions) (resolution defaultCliOptions)
                     z g e8 j) =
                negb (out =? "")%string && negb (code <=? 0)).
    { unfold checks_pass. cbn [output epsg].
      destruct (out =? "")%string, (code <=? 0); reflexivity. }
    rewrite E, andb_true_iff, !negb_true_iff, String.eqb_neq, Z.leb_gt.
    reflexivity.
  - apply MainFacts.rejected_iff_checks. reflexivity.
Qed.

End ValidateFacts.

(** ** package geom: where a stream stands after any use *)
Module StreamPositionFacts.
Import Go geom geom.LinkedPointStream.

Lemma skipn_next {A : Type} (k : nat) (l : list A) :
  skipn (S k) l = tl (skipn k l).
Proof.
  revert l; induction k as [ | k IH]; intros [ | a l]; try reflexivity.
  exact (IH l).
Qed.

(** [current] is always a tail of the list at [start]. *)
Lemma current_is_a_tail (cs : list call) (l : t) (k : nat) :
  points (current l) = skipn k (points (start l)) ->
  points (current (after_calls l cs)) =
    skipn (consumed_from k cs) (points (start l)) /\
  start (after_calls l cs) = start l.
Proof.
  unfold after_calls, consumed_from. revert l k.
  induction cs as [ | c cs IH]; intros l k Hk; [now split | ].
  cbn [fold_left].
  destruct c.
  - assert (Hs : start (after_call l CallNext) = start l)
      by (simpl; unfold Next; destruct (current l); reflexivity).
    rewrite <- Hs. apply IH. rewrite Hs, skipn_next, <- Hk.
    simpl. unfold Next.
    destruct (current l) as [[[nx | ] pt] | ] eqn:Ec; simpl; rewrite ?Ec;
      reflexivity.
  - now apply IH.
  - apply (IH (Reset l) O). reflexivity.
Qed.

(** X13.  A stream resumes where it stopped.  After any calls of [Next],
    [Len] and [Reset] on a stream made by [NewLinkedPointStream], further
    calls of [Next] deliver the points of the list that follow the ones
    taken since the last [Reset] (since the construction, if there was
    none), each once and in order, and then fail. *)
Theorem Next_resumes
    (root : option LinkedPoint.t) (length : int) (cs : list call) (n : nat) :
  fst (NextN n (after_calls (NewLinkedPointStream root length) cs)) =
  results_of (skipn (consumed cs) (points root)) n.
Proof.
  rewrite StreamFacts.NextN_results.
  destruct (current_is_a_tail cs (NewLinkedPointStream root length) O eq_refl)
    as [-> _].
  reflexivity.
Qed.

End StreamPositionFacts.
